(** * Stratified random sampler: a shallow embedding of
      [stratifiedRandomSampler.py] and the properties of its specification.

    The script reads a CSV of recording events, drops the rows flagged with an
    error, turns the [StartDateTime] column into timestamps, and, for every
    device that has a long-enough recording in each of the 24 hours of the day,
    draws one row per hour at random.

    Modelling conventions.
    - A pandas data frame is a header (the column names) and a list of rows.
      The four columns the script names are typed fields of a row; the other
      columns are an opaque payload.  The row label (the frame's index) is a
      field too, because filtering and sampling keep it.
    - A nullable cell is an [option]: [None] is pandas' NaN / NaT.
      [Error] holds strings, [Duration] a rational number.  [read_csv] infers
      the dtype of a column, so a cell of [AudioMothCode] is a string, a
      number (when the device codes are numeric) or missing ([Cell]).
    - The dtype of the [StartDateTime] column is the type parameter of a row:
      [option string] after [read_csv], [option Timestamp] after
      [to_datetime].
    - Printing, the standard input, the random generator and file I/O are a
      state ([World]) threaded through a state-and-exception monad.  What the
      file system and [pandas.to_datetime] answer is read from an environment
      ([Env]). *)

From Stdlib Require Import String Ascii Bool Arith Lia.
From Stdlib Require Import ZArith QArith DecimalString List.
Import ListNotations.

Local Close Scope Q_scope.
Local Open Scope string_scope.
Local Open Scope list_scope.
Local Open Scope nat_scope.

(* ================================================================== *)
(** * Data model *)
(* ================================================================== *)

(** A parsed date and time; the sampler only looks at [hour]. *)
Record Timestamp := mkTimestamp {
  year : Z;
  month : nat;
  day : nat;
  hour : nat;
  minute : nat;
  second : nat
}.

(** A cell of the [AudioMothCode] column: missing (NaN), a string, or a
    number when [read_csv] found the column numeric. *)
Inductive Cell :=
| Missing
| Text (s : string)
| Number (z : Z).

(** One row of a frame whose [StartDateTime] column holds cells of type [T]. *)
Record Row (T : Type) := mkRow {
  Index : nat;
  AudioMothCode : Cell;
  Error : option string;
  Duration : option Q;
  StartDateTime : T;
  Payload : list (option string)
}.

Arguments mkRow {T}.
Arguments Index {T}.
Arguments AudioMothCode {T}.
Arguments Error {T}.
Arguments Duration {T}.
Arguments StartDateTime {T}.
Arguments Payload {T}.

Record DataFrame (T : Type) := mkFrame {
  columns : list string;
  rows : list (Row T)
}.

Arguments mkFrame {T}.
Arguments columns {T}.
Arguments rows {T}.

(** The frame as [read_csv] gives it, and the frame after [to_datetime]. *)
Definition RawFrame := DataFrame (option string).
Definition TimedFrame := DataFrame (option Timestamp).

(** Module-level constants of the script. *)
Definition MINIMUM_RECORD_DURATION : Q := 60%Q.
Definition AUDIOMOTH_ID_COL := "AudioMothCode".
Definition ERROR_COL := "Error".
Definition DURATION_COL := "Duration".
Definition RECORD_START_COL := "StartDateTime".

(* ================================================================== *)
(** * The pandas operations the script uses *)
(* ================================================================== *)

Module Pandas.

(** [df[mask]]: the rows where the mask is true, labels and order kept. *)
Definition select {T} (mask : Row T -> bool) (df : DataFrame T) : DataFrame T :=
  mkFrame (columns df) (filter mask (rows df)).

(** [series.isnull()] on one cell. *)
Definition isnull {A} (c : option A) : bool :=
  match c with
  | None => true
  | Some _ => false
  end.

(** [series == value] on one cell of the device column.  Two strings, or two
    numbers, are compared; a string never equals a number; a missing cell
    equals nothing, and nothing equals a missing value. *)
Definition eq_cell (c v : Cell) : bool :=
  match c, v with
  | Text s, Text t => String.eqb s t
  | Number a, Number b => Z.eqb a b
  | _, _ => false
  end.

(** [series > bound] on one numeric cell; NaN compares false. *)
Definition gt_cell (c : option Q) (bound : Q) : bool :=
  match c with
  | Some q => negb (Qle_bool q bound)
  | None => false
  end.

(** [series.dt.hour == h] on one timestamp cell; NaT compares false. *)
Definition hour_is (c : option Timestamp) (h : nat) : bool :=
  match c with
  | Some t => Nat.eqb (hour t) h
  | None => false
  end.

(** [pandas.DataFrame(columns = cols)]: no rows. *)
Definition empty_frame {T} (cols : list string) : DataFrame T :=
  mkFrame cols [].

(** [df.append(other)]: the rows of [other] after those of [df]; a column of
    [other] that [df] lacks is added at the end of the header. *)
Definition append {T} (df other : DataFrame T) : DataFrame T :=
  mkFrame
    (columns df ++
     filter (fun c => negb (existsb (String.eqb c) (columns df))) (columns other))
    (rows df ++ rows other).

(** Two cells hold the same value for [unique]: the hash table behind it
    puts all missing values in one slot. *)
Definition same_key (a b : Cell) : bool :=
  match a, b with
  | Text s, Text t => String.eqb s t
  | Number x, Number y => Z.eqb x y
  | Missing, Missing => true
  | _, _ => false
  end.

(** [series.unique().tolist()]: the distinct values in order of first
    appearance. *)
Fixpoint unique (l : list Cell) : list Cell :=
  match l with
  | [] => []
  | x :: xs => x :: filter (fun y => negb (same_key y x)) (unique xs)
  end.

(** [pandas.to_datetime(series, errors='coerce')] on a column of dtype [T],
    given what it does on one cell. *)
Definition assign_start {T U} (conv : T -> U) (df : DataFrame T) : DataFrame U :=
  mkFrame (columns df)
    (map (fun r => mkRow (Index r) (AudioMothCode r) (Error r) (Duration r)
                         (conv (StartDateTime r)) (Payload r))
         (rows df)).

(** On a string cell the parser decides; a missing cell stays missing. *)
Definition coerce_object (parse : string -> option Timestamp)
    (c : option string) : option Timestamp :=
  match c with
  | Some s => parse s
  | None => None
  end.

(** A column that already holds timestamps is returned as it is. *)
Definition coerce_datetime (c : option Timestamp) : option Timestamp := c.

End Pandas.

(* ================================================================== *)
(** * Effects: streams, random draws, files, exceptions *)
(* ================================================================== *)

Inductive Exn := TypeError | EOFError | ValueError | IndexError.

Inductive Result (A : Type) :=
| Ok (a : A)
| Raise (e : Exn).

Arguments Ok {A}.
Arguments Raise {A}.

Inductive IOEvent :=
| ReadCsv (path : string)
| WriteCsv (path : string) (df : TimedFrame).

(** What a run can observe and change.  [rng_seed] is the sequence of raw
    draws of the generator and [rng_pos] how many were consumed; the streams
    list the chunks written so far, oldest first. *)
Record World := mkWorld {
  rng_seed : nat -> nat;
  rng_pos : nat;
  stdin : list string;
  stdout : list string;
  stderr : list string;
  io_trace : list IOEvent
}.

(** What the surroundings answer.  [fs_read] is [pandas.read_csv]: the frame,
    or the text of the exception it raises.  [fs_write] is [DataFrame.to_csv]:
    [Some] text of the exception, or [None] when the write succeeds.
    [USE_COMMAND_LINE_ARGS] is the module-level flag of the script, which
    ships with [False]; it is a field here so that both modes can be run. *)
Record Env := mkEnv {
  USE_COMMAND_LINE_ARGS : bool;
  sys_argv : list string;
  fs_read : string -> string + RawFrame;
  fs_write : string -> TimedFrame -> option string;
  parse_datetime : string -> option Timestamp
}.

Definition M (A : Type) : Type := World -> Result A * World.

Definition ret {A} (a : A) : M A := fun w => (Ok a, w).

Definition raise {A} (e : Exn) : M A := fun w => (Raise e, w).

Definition bind {A B} (m : M A) (k : A -> M B) : M B :=
  fun w =>
    match m w with
    | (Ok a, w') => k a w'
    | (Raise e, w') => (Raise e, w')
    end.

Declare Scope py_scope.
Delimit Scope py_scope with py.
Notation "x <- m ;; k" := (bind m (fun x => k))
  (at level 100, m at next level, right associativity) : py_scope.
Notation "m ;; k" := (bind m (fun _ => k))
  (at level 100, right associativity) : py_scope.
Local Open Scope py_scope.

Definition nl : string := String (ascii_of_nat 10) EmptyString.

(** [print(s)] *)
Definition print (s : string) : M unit :=
  fun w => (Ok tt,
            mkWorld (rng_seed w) (rng_pos w) (stdin w)
                    (stdout w ++ [(s ++ nl)%string]) (stderr w) (io_trace w)).

(** [print(s, file=sys.stderr)] and [sys.stderr.write(s)] *)
Definition stderr_write (s : string) : M unit :=
  fun w => (Ok tt,
            mkWorld (rng_seed w) (rng_pos w) (stdin w)
                    (stdout w) (stderr w ++ [s]) (io_trace w)).

(** [input(prompt)]: the prompt goes to the standard output, then one line is
    read; at the end of the input Python raises [EOFError]. *)
Definition input (prompt : string) : M string :=
  fun w =>
    let out := stdout w ++ [prompt] in
    match stdin w with
    | [] => (Raise EOFError,
             mkWorld (rng_seed w) (rng_pos w) [] out (stderr w) (io_trace w))
    | line :: rest =>
        (Ok line,
         mkWorld (rng_seed w) (rng_pos w) rest out (stderr w) (io_trace w))
    end.

(** One draw of the generator: a position below [n]. *)
Definition random_below (n : nat) : M nat :=
  fun w => (Ok (rng_seed w (rng_pos w) mod n),
            mkWorld (rng_seed w) (S (rng_pos w)) (stdin w)
                    (stdout w) (stderr w) (io_trace w)).

Definition log_io (ev : IOEvent) : M unit :=
  fun w => (Ok tt,
            mkWorld (rng_seed w) (rng_pos w) (stdin w)
                    (stdout w) (stderr w) (io_trace w ++ [ev])).

(** [df.sample()]: one row of the frame, drawn uniformly; an empty frame has
    nothing to draw from and pandas raises [ValueError]. *)
Definition sample {T} (df : DataFrame T) : M (DataFrame T) :=
  match rows df with
  | [] => raise ValueError
  | r0 :: _ =>
      i <- random_below (length (rows df)) ;;
      ret (mkFrame (columns df) [nth i (rows df) r0])
  end.

(** [a + b] where [b] is a string and [a] comes out of a frame: Python
    concatenates two strings and raises [TypeError] when [a] is a number or a
    missing value, which is a float. *)
Definition str_add_l (a : Cell) (b : string) : M string :=
  match a with
  | Text s => ret (s ++ b)%string
  | _ => raise TypeError
  end.

Definition str_add_r (a : string) (b : Cell) : M string :=
  match b with
  | Text s => ret (a ++ s)%string
  | _ => raise TypeError
  end.

(** [str(n)] *)
Definition str (n : nat) : string := NilEmpty.string_of_uint (Nat.to_uint n).

(* ================================================================== *)
(** * The script *)
(* ================================================================== *)

(** [remove_erroneous_rows] *)
Definition remove_erroneous_rows {T} (imported_data : DataFrame T) : DataFrame T :=
  Pandas.select (fun r => Pandas.isnull (Error r)) imported_data.

(** The [for hour in range(0, 24)] loop of [pick_random_sample], over the
    hours still to visit. *)
Fixpoint pick_hours (device_id : Cell)
    (device_id_samples_of_min_length : TimedFrame)
    (hours : list nat) (this_samples : TimedFrame)
    : M (bool * option TimedFrame) :=
  match hours with
  | [] => ret (true, Some this_samples)
  | h :: later =>
      let data_for_hour :=
        Pandas.select (fun r => Pandas.hour_is (StartDateTime r) h)
                      device_id_samples_of_min_length in
      if length (rows data_for_hour) <? 1 then
        msg <- str_add_l device_id
                 (" did not have any recordings for hour " ++ str h ++
                  " and is thus invalid.")%string ;;
        print msg ;;
        ret (false, None)
      else
        picked <- sample data_for_hour ;;
        pick_hours device_id device_id_samples_of_min_length later
                   (Pandas.append this_samples picked)
  end.

(** [pick_random_sample] *)
Definition pick_random_sample (imported_data : TimedFrame)
    (device_id : Cell) : M (bool * option TimedFrame) :=
  let this_samples := Pandas.empty_frame (columns imported_data) in
  let device_id_samples :=
    Pandas.select (fun r => Pandas.eq_cell (AudioMothCode r) device_id)
                  imported_data in
  let device_id_samples_of_min_length :=
    Pandas.select (fun r => Pandas.gt_cell (Duration r) MINIMUM_RECORD_DURATION)
                  device_id_samples in
  pick_hours device_id device_id_samples_of_min_length (seq 0 24) this_samples.

Definition usage_input : string :=
  "Incorrect usage: ./stratifiedRandomSampler.py csvFilePathInput csvFileOutput"
  ++ nl.

Definition usage_output : string :=
  "Incorrect usage: ./stratifiedRandomSampler.py csvFilePath csvFileOutput"
  ++ nl.

(** [sys.argv[i]]; out of range Python raises [IndexError]. *)
Definition argv_at (env : Env) (i : nat) : M string :=
  match nth_error (sys_argv env) i with
  | Some s => ret s
  | None => raise IndexError
  end.

(** [get_file_to_open] *)
Definition get_file_to_open (env : Env) : M (option string) :=
  if USE_COMMAND_LINE_ARGS env then
    if negb (length (sys_argv env) =? 2) then
      stderr_write usage_input ;;
      ret None
    else
      s <- argv_at env 0 ;;
      ret (Some s)
  else
    read_input <- input "Enter input file path: " ;;
    ret (Some read_input).

(** [get_file_output_path] *)
Definition get_file_output_path (env : Env) : M (option string) :=
  if USE_COMMAND_LINE_ARGS env then
    if negb (length (sys_argv env) =? 2) then
      stderr_write usage_output ;;
      ret None
    else
      s <- argv_at env 1 ;;
      ret (Some s)
  else
    read_output <- input "Enter output file path: " ;;
    ret (Some read_output).

(** The [for device in device_samples] loop of [main].  The sampler never
    returns [True] without a frame; appending [None] would raise. *)
Fixpoint sample_devices (imported_data : TimedFrame)
    (device_samples : list Cell) (df_output : TimedFrame)
    : M TimedFrame :=
  match device_samples with
  | [] => ret df_output
  | device :: later =>
      msg <- str_add_r "Attempting to sample from Device ID " device ;;
      print (msg ++ "...")%string ;;
      res <- pick_random_sample imported_data device ;;
      match res with
      | (true, Some samples_from_device) =>
          print "Sample picked!" ;;
          sample_devices imported_data later
                         (Pandas.append df_output samples_from_device)
      | (true, None) => raise TypeError
      | (false, _) =>
          print "Device is invalid." ;;
          sample_devices imported_data later df_output
      end
  end.

(** The cleaning steps of [main]: the erroneous rows go, then the start column
    is converted.  [conv] is what [to_datetime] does on a cell of the column's
    dtype. *)
Definition clean {T} (conv : T -> option Timestamp) (imported_data : DataFrame T)
    : TimedFrame :=
  Pandas.assign_start conv (remove_erroneous_rows imported_data).

(** The device list of [main]. *)
Definition device_list (imported_data : TimedFrame) : list Cell :=
  Pandas.unique (map AudioMothCode (rows imported_data)).

(** The sampling part of [main]: from the device list to the filled output
    frame. *)
Definition run_sampler (imported_data : TimedFrame) : M TimedFrame :=
  print "Getting devices..." ;;
  let device_samples := device_list imported_data in
  print "Device list created." ;;
  let df_output := Pandas.empty_frame (columns imported_data) in
  sample_devices imported_data device_samples df_output.

(** [pandas.read_csv] inside its [try]: the exception is a value. *)
Definition try_read_csv (env : Env) (path : string) : M (string + RawFrame) :=
  log_io (ReadCsv path) ;;
  ret (fs_read env path).

(** [df.to_csv] inside its [try]. *)
Definition try_to_csv (env : Env) (path : string) (df : TimedFrame)
    : M (option string) :=
  log_io (WriteCsv path df) ;;
  ret (fs_write env path df).

(** [main] *)
Definition main (env : Env) : M bool :=
  input_file_path <- get_file_to_open env ;;
  match input_file_path with
  | None => ret false
  | Some input_file_path =>
  output_file_path <- get_file_output_path env ;;
  match output_file_path with
  | None => ret false
  | Some output_file_path =>
  read <- try_read_csv env input_file_path ;;
  match read with
  | inl e =>
      stderr_write ("Error when opening CSV File. See: " ++ e ++ nl)%string ;;
      ret false
  | inr imported_data =>
      print "Data loaded! Removing Erroneous Rows..." ;;
      let imported_data := remove_erroneous_rows imported_data in
      print "Erroneous rows removed!" ;;
      print "Converting strings to dates... (This will take some time.)" ;;
      let imported_data :=
        Pandas.assign_start (Pandas.coerce_object (parse_datetime env))
                            imported_data in
      print "Strings converted!" ;;
      df_output <- run_sampler imported_data ;;
      print "Samples ready, outputting..." ;;
      print "Done. Outputting" ;;
      written <- try_to_csv env output_file_path df_output ;;
      match written with
      | Some e =>
          stderr_write ("Error when writing to CSV File. See: " ++ e ++ nl)%string ;;
          ret false
      | None => ret true
      end
  end
  end
  end.

(* ================================================================== *)
(** * Vocabulary of the specification *)
(* ================================================================== *)

(** The cell holds a string. *)
Definition is_text (c : Cell) : Prop := exists s, c = Text s.


(** The row belongs to the queried device: both hold the same value, the same
    string for a device that is a string. *)
Definition of_device {T} (dev : Cell) (r : Row T) : Prop :=
  dev <> Missing /\ AudioMothCode r = dev.

(** The recording lasts more than the minimum of 60 seconds. *)
Definition long_enough {T} (r : Row T) : Prop :=
  exists q, Duration r = Some q /\ (60 < q)%Q.

(** The recording starts in hour [h] of the day. *)
Definition starts_in_hour (h : nat) (r : Row (option Timestamp)) : Prop :=
  exists t, StartDateTime r = Some t /\ hour t = h.

(** An eligible record of the device for the hour. *)
Definition Eligible (dev : Cell) (h : nat)
    (r : Row (option Timestamp)) : Prop :=
  of_device dev r /\ long_enough r /\ starts_in_hour h r.

(** The hour has no eligible record of the device in the table. *)
Definition empty_hour (table : TimedFrame) (dev : Cell) (h : nat) : Prop :=
  forall r, In r (rows table) -> ~ Eligible dev h r.

(** The coverage invariant: every hour of the day has an eligible record. *)
Definition covered (table : TimedFrame) (dev : Cell) : Prop :=
  forall h, h < 24 -> exists r, In r (rows table) /\ Eligible dev h r.

(** The two locals of [pick_random_sample], by name. *)
Definition candidates (imported_data : TimedFrame) (device_id : Cell)
    : TimedFrame :=
  Pandas.select (fun r => Pandas.gt_cell (Duration r) MINIMUM_RECORD_DURATION)
    (Pandas.select (fun r => Pandas.eq_cell (AudioMothCode r) device_id)
                   imported_data).

Definition data_for_hour (imported_data : TimedFrame)
    (device_id : Cell) (h : nat) : TimedFrame :=
  Pandas.select (fun r => Pandas.hour_is (StartDateTime r) h)
                (candidates imported_data device_id).

(** The first hour of the day for which the device has nothing, if any. *)
Definition first_empty_hour (table : TimedFrame) (dev : Cell)
    : option nat :=
  find (fun h => length (rows (data_for_hour table dev h)) <? 1) (seq 0 24).

(** The world after [n] more draws of the generator. *)
Definition advance (n : nat) (w : World) : World :=
  mkWorld (rng_seed w) (n + rng_pos w) (stdin w) (stdout w) (stderr w)
          (io_trace w).

(** The world after some lines were printed. *)
Definition printed (lines : list string) (w : World) : World :=
  mkWorld (rng_seed w) (rng_pos w) (stdin w)
          (stdout w ++ map (fun s => (s ++ nl)%string) lines) (stderr w)
          (io_trace w).

(** The line a rejection prints. *)
Definition reject_line (d : string) (h : nat) : string :=
  (d ++ " did not have any recordings for hour " ++ str h ++
   " and is thus invalid.")%string.

(** How the sampler ends in world [w] at an empty hour [h]: with the
    rejection printed for a device that is a string, with [TypeError] from the
    concatenation for any other value. *)
Definition rejection (dev : Cell) (h : nat) (w : World)
    : Result (bool * option TimedFrame) * World :=
  match dev with
  | Text d => (Ok (false, None), printed [reject_line d h] w)
  | _ => (Raise TypeError, w)
  end.

(** What a call returned, without the world. *)
Definition outcome {A} (x : Result A * World) : Result A := fst x.

(** The verdict of the sampler on one device: accepted, rejected, or the
    exception it died with. *)
Definition verdict (x : Result (bool * option TimedFrame) * World) : Result bool :=
  match fst x with
  | Ok (b, _) => Ok b
  | Raise e => Raise e
  end.

(** [l1] is [l2] with some elements left out, order kept. *)
Inductive Subseq {A} : list A -> list A -> Prop :=
| Subseq_nil : Subseq [] []
| Subseq_keep x l1 l2 : Subseq l1 l2 -> Subseq (x :: l1) (x :: l2)
| Subseq_drop x l1 l2 : Subseq l1 l2 -> Subseq l1 (x :: l2).

(** The rows [pick_hours] looks at for hour [h]. *)
Definition bucket (cands : TimedFrame) (h : nat) : list (Row (option Timestamp)) :=
  rows (Pandas.select (fun r => Pandas.hour_is (StartDateTime r) h) cands).

(** Whether the sampler accepts the device: it is a string and no hour of its
    day is empty.  This looks at the table and the device only. *)
Definition accepts (table : TimedFrame) (dev : Cell) : bool :=
  match dev, first_empty_hour table dev with
  | Text _, None => true
  | _, _ => false
  end.

(** The line that opens a device's turn. *)
Definition attempt_line (d : string) : string :=
  ("Attempting to sample from Device ID " ++ d ++ "...")%string.

(** The lines one turn of the loop prints for a device. *)
Definition device_log (table : TimedFrame) (dev : Cell) : list string :=
  match dev with
  | Text d =>
      attempt_line d ::
      match first_empty_hour table dev with
      | Some h => [reject_line d h; "Device is invalid."]
      | None => ["Sample picked!"]
      end
  | _ => []
  end.

(** The draws one turn of the loop makes for a device. *)
Definition device_draws (table : TimedFrame) (dev : Cell) : nat :=
  match first_empty_hour table dev with
  | Some h => h
  | None => 24
  end.

(** The devices the loop gets through: those before the first value that is
    not a string. *)
Fixpoint visited (devs : list Cell) : list Cell :=
  match devs with
  | Text d :: later => Text d :: visited later
  | _ => []
  end.

(** The 24 rows of one accepted device: position [h] holds an eligible row of
    hour [h]. *)
Definition day_of (table : TimedFrame) (dev : Cell)
    (g : list (Row (option Timestamp))) : Prop :=
  length g = 24 /\
  forall h, h < 24 ->
    exists r, nth_error g h = Some r /\ In r (rows table) /\ Eligible dev h r.

(** The world after some chunks went to the error stream. *)
Definition errored (chunks : list string) (w : World) : World :=
  mkWorld (rng_seed w) (rng_pos w) (stdin w) (stdout w) (stderr w ++ chunks)
          (io_trace w).

(** The world after some file operations. *)
Definition logged (evs : list IOEvent) (w : World) : World :=
  mkWorld (rng_seed w) (rng_pos w) (stdin w) (stdout w) (stderr w)
          (io_trace w ++ evs).


(** The test of [get_file_to_open] and [get_file_output_path] in argument
    mode turns the argument vector down. *)
Definition argv_refused (env : Env) : Prop :=
  USE_COMMAND_LINE_ARGS env = true /\ length (sys_argv env) <> 2.

(** The two paths when both are obtained, and the world at that point: the
    argument vector in argument mode, two lines of the standard input
    otherwise. *)
Definition acquired (env : Env) (w : World) : option (string * string * World) :=
  if USE_COMMAND_LINE_ARGS env then
    match sys_argv env with
    | [a0; a1] => Some (a0, a1, w)
    | _ => None
    end
  else
    match stdin w with
    | l1 :: l2 :: rest =>
        Some (l1, l2,
              mkWorld (rng_seed w) (rng_pos w) rest
                      (stdout w ++ ["Enter input file path: ";
                                    "Enter output file path: "])
                      (stderr w) (io_trace w))
    | _ => None
    end.

(** The file operations of one run of [main], oldest first. *)
Definition events (env : Env) (w : World) : list IOEvent :=
  skipn (length (io_trace w)) (io_trace (snd (main env w))).



(** The cleaned table of a run that read [raw]. *)
Definition cleaned (env : Env) (raw : RawFrame) : TimedFrame :=
  clean (Pandas.coerce_object (parse_datetime env)) raw.

Definition read_error_line (e : string) : string :=
  ("Error when opening CSV File. See: " ++ e ++ nl)%string.

Definition write_error_line (e : string) : string :=
  ("Error when writing to CSV File. See: " ++ e ++ nl)%string.

(** The lines [main] prints between the read and the sampling. *)
Definition loading_lines : list string :=
  ["Data loaded! Removing Erroneous Rows...";
   "Erroneous rows removed!";
   "Converting strings to dates... (This will take some time.)";
   "Strings converted!"].

(** The world in which the sampling of a run starts. *)
Definition at_sampling (inp : string) (w1 : World) : World :=
  printed loading_lines (logged [ReadCsv inp] w1).

(** The world in which the run ends once the sampler returned [df]. *)
Definition at_end (out : string) (df : TimedFrame) (w3 : World) : World :=
  logged [WriteCsv out df]
         (printed ["Samples ready, outputting..."; "Done. Outputting"] w3).

(** The part of [main] after the two paths are known. *)
Definition load_sample_write (env : Env) (inp out : string) : M bool :=
  read <- try_read_csv env inp ;;
  match read with
  | inl e =>
      stderr_write ("Error when opening CSV File. See: " ++ e ++ nl)%string ;;
      ret false
  | inr imported_data =>
      print "Data loaded! Removing Erroneous Rows..." ;;
      let imported_data := remove_erroneous_rows imported_data in
      print "Erroneous rows removed!" ;;
      print "Converting strings to dates... (This will take some time.)" ;;
      let imported_data :=
        Pandas.assign_start (Pandas.coerce_object (parse_datetime env))
                            imported_data in
      print "Strings converted!" ;;
      df_output <- run_sampler imported_data ;;
      print "Samples ready, outputting..." ;;
      print "Done. Outputting" ;;
      written <- try_to_csv env out df_output ;;
      match written with
      | Some e =>
          stderr_write ("Error when writing to CSV File. See: " ++ e ++ nl)%string ;;
          ret false
      | None => ret true
      end
  end.

(** How the run ends, given how the sampling ended. *)
Definition finish (env : Env) (out : string) (rs : Result TimedFrame * World)
    : Result bool * World :=
  match rs with
  | (Raise x, w3) => (Raise x, w3)
  | (Ok df, w3) =>
      match fs_write env out df with
      | Some e => (Ok false, errored [write_error_line e] (at_end out df w3))
      | None => (Ok true, at_end out df w3)
      end
  end.

(** Every run of [main] is one of five kinds. *)
Inductive RunKind (env : Env) (w : World) : Prop :=
| ArgvRefused :
    argv_refused env ->
    main env w = (Ok false, errored [usage_input] w) ->
    events env w = [] ->
    RunKind env w
| InputEnded :
    ~ argv_refused env ->
    acquired env w = None ->
    outcome (main env w) = Raise EOFError ->
    events env w = [] ->
    stderr (snd (main env w)) = stderr w ->
    RunKind env w
| ReadFailed inp out w1 e :
    acquired env w = Some (inp, out, w1) ->
    fs_read env inp = inl e ->
    outcome (main env w) = Ok false ->
    events env w = [ReadCsv inp] ->
    stderr (snd (main env w)) = stderr w ++ [read_error_line e] ->
    RunKind env w
| DeviceNotText inp out w1 raw :
    acquired env w = Some (inp, out, w1) ->
    fs_read env inp = inr raw ->
    ~ Forall is_text (device_list (cleaned env raw)) ->
    outcome (main env w) = Raise TypeError ->
    events env w = [ReadCsv inp] ->
    stderr (snd (main env w)) = stderr w ->
    RunKind env w
| Sampled inp out w1 raw df :
    acquired env w = Some (inp, out, w1) ->
    fs_read env inp = inr raw ->
    Forall is_text (device_list (cleaned env raw)) ->
    outcome (run_sampler (cleaned env raw) (at_sampling inp w1)) = Ok df ->
    events env w = [ReadCsv inp; WriteCsv out df] ->
    outcome (main env w) =
      Ok (match fs_write env out df with Some _ => false | None => true end) ->
    stderr (snd (main env w)) =
      stderr w ++
      match fs_write env out df with
      | Some e => [write_error_line e]
      | None => []
      end ->
    RunKind env w.

(** The rows the loop over the hours draws from a generator whose raw draws
    are [seed], the first one at position [pos]: for each hour, the row of the
    hour's bucket at the position the next draw gives, as [sample] picks it. *)
Fixpoint drawn (cands : TimedFrame) (seed : nat -> nat) (pos : nat)
    (hours : list nat) : list (Row (option Timestamp)) :=
  match hours with
  | [] => []
  | h :: later =>
      match bucket cands h with
      | [] => []
      | r0 :: rest =>
          nth (seed pos mod length (r0 :: rest)) (r0 :: rest) r0 ::
          drawn cands seed (S pos) later
      end
  end.

(** The world [w] with its generator replaced by one that always draws [i]. *)
Definition with_constant_draw (i : nat) (w : World) : World :=
  mkWorld (fun _ => i) (rng_pos w) (stdin w) (stdout w) (stderr w) (io_trace w).

(* ================================================================== *)
(** * Sample data *)
(* ================================================================== *)

Module Sample.

Definition header : list string :=
  ["AudioMothCode"; "Error"; "Duration"; "StartDateTime"; "Comment"].

Definition stamp (h : nat) : Timestamp := mkTimestamp 2019 6 1 h 30 0.

Definition digit (c : ascii) : option nat :=
  let n := nat_of_ascii c in
  if (48 <=? n) && (n <=? 57) then Some (n - 48) else None.

(** A stand-in for the date parser: it reads the two digits of an hour. *)
Definition parse_hour (s : string) : option Timestamp :=
  match s with
  | String a (String b EmptyString) =>
      match digit a, digit b with
      | Some x, Some y =>
          if 10 * x + y <? 24 then Some (stamp (10 * x + y)) else None
      | _, _ => None
      end
  | _ => None
  end.

Definition hour_text (h : nat) : string :=
  if h <? 10 then ("0" ++ str h)%string else str h.

(** A recording of two minutes by device [d] in hour [h]. *)
Definition recording (label : nat) (d : string) (h : nat) : Row (option string) :=
  mkRow label (Text d) None (Some 120%Q) (Some (hour_text h)) [None].

(** One recording by [d] in each of the first [n] hours. *)
Definition hours_of (base : nat) (d : string) (n : nat) : list (Row (option string)) :=
  map (fun h => recording (base + h) d h) (seq 0 n).

(** Device D1 covers the day.  Device D2 covers hours 0-22; for hour 23 it
    has a flagged recording, a recording of 30 seconds, and its last row has a
    start that does not parse. *)
Definition raw : RawFrame :=
  mkFrame header
    (hours_of 0 "D1" 24 ++ hours_of 24 "D2" 23 ++
     [mkRow 47 (Text "D2") (Some "FILE_CORRUPT") (Some 120%Q) (Some "23") [None];
      mkRow 48 (Text "D2") None (Some 30%Q) (Some "23") [Some "short"];
      mkRow 49 (Text "D2") None (Some 120%Q) (Some "not a date") [None]]).

(** The same day of D1, then a row without device id, then a day of D3. *)
Definition raw_nan : RawFrame :=
  mkFrame header
    (hours_of 0 "D1" 24 ++
     [mkRow 24 Missing None (Some 120%Q) (Some "05") [None]] ++
     hours_of 25 "D3" 24).

Definition table : TimedFrame := clean (Pandas.coerce_object parse_hour) raw.

Definition table_nan : TimedFrame :=
  clean (Pandas.coerce_object parse_hour) raw_nan.

(** A world with both paths waiting on the standard input. *)
Definition world : World :=
  mkWorld (fun n => 7 * n + 3) 0 ["in.csv"; "out.csv"] [] [] [].


(** Interactive mode over a file system that holds [r] and takes any write. *)
Definition env_of (r : RawFrame) : Env :=
  mkEnv false ["./stratifiedRandomSampler.py"]
        (fun _ => inr r) (fun _ _ => None) parse_hour.

(** Argument mode with the given argument vector. *)
Definition env_args (argv : list string) : Env :=
  mkEnv true argv (fun _ => inr raw) (fun _ _ => None) parse_hour.

(** The call the usage line asks for. *)
Definition argv_usage : list string :=
  ["./stratifiedRandomSampler.py"; "in.csv"; "out.csv"].

(** The day of D1 with a second recording in hour 5, of 61 seconds, and a
    recording of exactly 60 seconds in hour 7. *)
Definition raw_choice : RawFrame :=
  mkFrame header
    (hours_of 0 "D1" 24 ++
     [mkRow 24 (Text "D1") None (Some 61%Q) (Some "05") [Some "second"];
      mkRow 25 (Text "D1") None (Some 60%Q) (Some "07") [Some "sixty"]]).

Definition table_choice : TimedFrame :=
  clean (Pandas.coerce_object parse_hour) raw_choice.

(** A file with a header and no row. *)
Definition raw_empty : RawFrame := mkFrame header [].


(** A file whose device codes are numbers: device 7 covers the day. *)
Definition raw_numeric : RawFrame :=
  mkFrame header
    (map (fun h => mkRow h (Number 7) None (Some 120%Q) (Some (hour_text h))
                         [None])
         (seq 0 24)).

End Sample.

(* ================================================================== *)
(** * The Cleaner *)
(* ================================================================== *)

Section Cleaner.

Context {T : Type}.

Lemma filter_Subseq (p : Row T -> bool) (l : list (Row T)) :
  Subseq (filter p l) l.
Proof.
  induction l as [|x l IH]; simpl.
  - constructor.
  - destruct (p x); now constructor.
Qed.

Lemma filter_length_eq_iff {A} (p : A -> bool) (l : list A) :
  length (filter p l) = length l <-> forall x, In x l -> p x = true.
Proof.
  induction l as [|x l IH]; simpl.
  - split; [intros _ y [] | reflexivity].
  - pose proof (filter_length_le p l) as Hle.
    destruct (p x) eqn:Hpx; simpl; split.
    + intros Hlen y [<- | Hy]; [assumption|].
      apply IH; [lia | assumption].
    + intros Hall. f_equal. apply IH. intros y Hy. apply Hall. now right.
    + intros Hlen. lia.
    + intros Hall. specialize (Hall x (or_introl eq_refl)). congruence.
Qed.

Lemma filter_all {A} (p : A -> bool) (l : list A) :
  (forall x, In x l -> p x = true) -> filter p l = l.
Proof.
  induction l as [|x l IH]; simpl; intros Hall; [reflexivity|].
  rewrite (Hall x (or_introl eq_refl)). f_equal. apply IH.
  intros y Hy. apply Hall. now right.
Qed.

Lemma isnull_true_iff {A} (c : option A) : Pandas.isnull c = true <-> c = None.
Proof. destruct c; simpl; split; congruence. Qed.

Lemma remove_erroneous_rows_In (raw : DataFrame T) (r : Row T) :
  In r (rows (remove_erroneous_rows raw)) <-> In r (rows raw) /\ Error r = None.
Proof.
  unfold remove_erroneous_rows, Pandas.select; simpl.
  rewrite filter_In, isnull_true_iff. reflexivity.
Qed.

Lemma assign_start_length {U} (conv : T -> U) (df : DataFrame T) :
  length (rows (Pandas.assign_start conv df)) = length (rows df).
Proof. unfold Pandas.assign_start; simpl. apply length_map. Qed.

Lemma assign_start_In {U} (conv : T -> U) (df : DataFrame T) (r' : Row U) :
  In r' (rows (Pandas.assign_start conv df)) ->
  exists r, In r (rows df) /\
    r' = mkRow (Index r) (AudioMothCode r) (Error r) (Duration r)
               (conv (StartDateTime r)) (Payload r).
Proof.
  unfold Pandas.assign_start; simpl. rewrite in_map_iff.
  intros (r & <- & Hr). now exists r.
Qed.

Lemma clean_errors_null (conv : T -> option Timestamp) (raw : DataFrame T) r' :
  In r' (rows (clean conv raw)) -> Error r' = None.
Proof.
  unfold clean. intros H. apply assign_start_In in H as (r & Hr & ->).
  simpl. now apply remove_erroneous_rows_In in Hr.
Qed.

(** C3. The Cleaner's error filter returns exactly the rows of the input whose
    [Error] cell is null, each as it was and in the input's order, under the
    same header.  So no row of the output had a non-null error, the output is
    no longer than the input, and it is as long exactly when no input row had
    a non-null error.  The same bounds hold after the timestamp conversion,
    which keeps every row. *)
Theorem C3_cleaner_drops_exactly_error_rows
    (conv : T -> option Timestamp) (raw : DataFrame T) :
  let kept := remove_erroneous_rows raw in
  let cleaned := clean conv raw in
  columns kept = columns raw /\
  Subseq (rows kept) (rows raw) /\
  (forall r, In r (rows kept) <-> In r (rows raw) /\ Error r = None) /\
  (forall r', In r' (rows cleaned) -> Error r' = None) /\
  length (rows kept) <= length (rows raw) /\
  (length (rows kept) = length (rows raw) <->
     forall r, In r (rows raw) -> Error r = None) /\
  length (rows cleaned) = length (rows kept).
Proof.
  intros kept cleaned.
  split; [reflexivity|].
  split; [apply filter_Subseq|].
  split; [intros r; apply remove_erroneous_rows_In|].
  split; [apply (clean_errors_null conv raw)|].
  split; [apply filter_length_le|].
  split; [|apply assign_start_length].
  unfold kept, remove_erroneous_rows, Pandas.select; simpl.
  rewrite filter_length_eq_iff.
  split; intros Hall r Hr; apply isnull_true_iff; now apply Hall.
Qed.

End Cleaner.

Lemma assign_start_same (df : TimedFrame) :
  Pandas.assign_start Pandas.coerce_datetime df = df.
Proof.
  destruct df as [cols rs]. unfold Pandas.assign_start; simpl. f_equal.
  induction rs as [|r rs IH]; simpl; [reflexivity|].
  rewrite IH. now destruct r.
Qed.

Lemma remove_erroneous_rows_clean {T} (conv : T -> option Timestamp)
    (raw : DataFrame T) :
  remove_erroneous_rows (clean conv raw) = clean conv raw.
Proof.
  unfold remove_erroneous_rows at 1, Pandas.select.
  destruct (clean conv raw) as [cols rs] eqn:Hc; simpl. f_equal.
  apply filter_all. intros r Hr. apply isnull_true_iff.
  apply (clean_errors_null conv raw). now rewrite Hc.
Qed.

(** C9. The Cleaner is idempotent: cleaning a table that came out of the
    Cleaner (the error filter, then [to_datetime] on a column that already
    holds timestamps) gives the same table back. *)
Theorem C9_cleaner_idempotent {T} (conv : T -> option Timestamp)
    (raw : DataFrame T) :
  clean Pandas.coerce_datetime (clean conv raw) = clean conv raw.
Proof.
  unfold clean at 1.
  rewrite remove_erroneous_rows_clean. apply assign_start_same.
Qed.

(* ================================================================== *)
(** * Hour buckets *)
(* ================================================================== *)

Lemma eq_cell_true_iff {T} (dev : Cell) (r : Row T) :
  Pandas.eq_cell (AudioMothCode r) dev = true <-> of_device dev r.
Proof.
  unfold Pandas.eq_cell, of_device.
  destruct (AudioMothCode r) as [|s|a], dev as [|d|b]; split;
    try discriminate; try (intros [H1 H2]; congruence).
  - intros H. apply String.eqb_eq in H. subst. split; [discriminate | reflexivity].
  - intros [_ [= ->]]. apply String.eqb_refl.
  - intros H. apply Z.eqb_eq in H. subst. split; [discriminate | reflexivity].
  - intros [_ [= ->]]. apply Z.eqb_refl.
Qed.

Lemma gt_cell_true_iff {T} (r : Row T) :
  Pandas.gt_cell (Duration r) MINIMUM_RECORD_DURATION = true <-> long_enough r.
Proof.
  unfold Pandas.gt_cell, long_enough, MINIMUM_RECORD_DURATION.
  destruct (Duration r) as [q|]; split; try discriminate.
  - intros H. exists q. split; [reflexivity|].
    apply Qnot_le_lt. intros Hle. apply Qle_bool_iff in Hle.
    rewrite Hle in H. discriminate.
  - intros (q' & [= <-] & Hlt).
    destruct (Qle_bool q 60) eqn:Hle; [|reflexivity].
    apply Qle_bool_iff in Hle. now apply Qlt_not_le in Hlt.
  - intros (q' & ? & _). discriminate.
Qed.

Lemma hour_is_true_iff (h : nat) (r : Row (option Timestamp)) :
  Pandas.hour_is (StartDateTime r) h = true <-> starts_in_hour h r.
Proof.
  unfold Pandas.hour_is, starts_in_hour.
  destruct (StartDateTime r) as [t|]; split; try discriminate.
  - intros H. apply Nat.eqb_eq in H. now exists t.
  - intros (t' & [= <-] & Ht). now apply Nat.eqb_eq.
  - intros (t' & ? & _). discriminate.
Qed.

Lemma candidates_In (table : TimedFrame) dev r :
  In r (rows (candidates table dev)) <->
  In r (rows table) /\ of_device dev r /\ long_enough r.
Proof.
  unfold candidates, Pandas.select; simpl.
  rewrite !filter_In, eq_cell_true_iff, gt_cell_true_iff. tauto.
Qed.

Lemma data_for_hour_In (table : TimedFrame) dev h r :
  In r (rows (data_for_hour table dev h)) <->
  In r (rows table) /\ Eligible dev h r.
Proof.
  change (rows (data_for_hour table dev h))
    with (filter (fun r => Pandas.hour_is (StartDateTime r) h)
                 (rows (candidates table dev))).
  unfold Eligible.
  rewrite filter_In, candidates_In, hour_is_true_iff. tauto.
Qed.

Lemma data_for_hour_columns (table : TimedFrame) dev h :
  columns (data_for_hour table dev h) = columns table.
Proof. reflexivity. Qed.

Lemma data_for_hour_nil_iff (table : TimedFrame) dev h :
  rows (data_for_hour table dev h) = [] <-> empty_hour table dev h.
Proof.
  unfold empty_hour. split.
  - intros Hnil r Hr He.
    assert (Hin : In r (rows (data_for_hour table dev h)))
      by now apply data_for_hour_In.
    rewrite Hnil in Hin. exact Hin.
  - intros Hnone. destruct (rows (data_for_hour table dev h)) as [|r l] eqn:E;
      [reflexivity|].
    assert (Hin : In r (rows (data_for_hour table dev h)))
      by (rewrite E; now left).
    apply data_for_hour_In in Hin as [Hr He]. now destruct (Hnone r Hr).
Qed.

Lemma short_frame_iff {T} (df : DataFrame T) :
  (length (rows df) <? 1) = true <-> rows df = [].
Proof.
  destruct (rows df); simpl; split; try reflexivity; discriminate.
Qed.

(* ================================================================== *)
(** * Worlds *)
(* ================================================================== *)

Lemma advance_0 w : advance 0 w = w.
Proof. now destruct w. Qed.

Lemma advance_advance n m w : advance n (advance m w) = advance (n + m) w.
Proof. unfold advance; simpl. f_equal. lia. Qed.

Lemma printed_nil w : printed [] w = w.
Proof. destruct w. unfold printed; simpl. now rewrite app_nil_r. Qed.

Lemma printed_printed l1 l2 w : printed l2 (printed l1 w) = printed (l1 ++ l2) w.
Proof. unfold printed; simpl. now rewrite map_app, app_assoc. Qed.

Lemma printed_advance l n w : printed l (advance n w) = advance n (printed l w).
Proof. reflexivity. Qed.

Lemma print_run s w : print s w = (Ok tt, printed [s] w).
Proof. reflexivity. Qed.

Lemma random_below_run n w :
  random_below n w = (Ok (rng_seed w (rng_pos w) mod n), advance 1 w).
Proof. reflexivity. Qed.

Lemma bind_ok {A B} (m : M A) (k : A -> M B) w a w' :
  m w = (Ok a, w') -> bind m k w = k a w'.
Proof. unfold bind. now intros ->. Qed.

Lemma bind_raise {A B} (m : M A) (k : A -> M B) w e w' :
  m w = (Raise e, w') -> bind m k w = (Raise e, w').
Proof. unfold bind. now intros ->. Qed.

(* ================================================================== *)
(** * The sampler on one device *)
(* ================================================================== *)

Lemma append_same_header {T} (df other : DataFrame T) :
  columns other = columns df -> columns (Pandas.append df other) = columns df.
Proof.
  unfold Pandas.append; simpl. intros ->.
  replace (filter _ (columns df)) with (@nil string);
    [apply app_nil_r|].
  symmetry.
  assert (H : forall l, incl l (columns df) ->
            filter (fun c => negb (existsb (String.eqb c) (columns df))) l = []).
  { induction l as [|c l IH]; simpl; intros Hincl; [reflexivity|].
    assert (Hc : existsb (String.eqb c) (columns df) = true).
    { apply existsb_exists. exists c. split.
      - apply Hincl. now left.
      - apply String.eqb_refl. }
    rewrite Hc; simpl. apply IH. intros x Hx. apply Hincl. now right. }
  apply H, incl_refl.
Qed.

Lemma sample_run {T} (df : DataFrame T) w :
  rows df <> [] ->
  exists r, In r (rows df) /\
    sample df w = (Ok (mkFrame (columns df) [r]), advance 1 w).
Proof.
  unfold sample. destruct (rows df) as [|r0 l] eqn:E; [congruence|]. intros _.
  exists (nth (rng_seed w (rng_pos w) mod length (r0 :: l)) (r0 :: l) r0).
  split.
  - apply nth_In. apply Nat.mod_upper_bound. discriminate.
  - reflexivity.
Qed.

(** The loop over the hours either finds a row in every hour, and returns the
    rows it drew after those it was given, or stops at the first hour without
    a row and ends as [rejection] says. *)
Lemma pick_hours_run (dev : Cell) (cands : TimedFrame) :
  forall hours acc w,
    columns acc = columns cands ->
    (exists picks,
        Forall2 (fun h r => In r (bucket cands h)) hours picks /\
        pick_hours dev cands hours acc w =
          (Ok (true, Some (mkFrame (columns acc) (rows acc ++ picks))),
           advance (length hours) w))
    \/
    (exists pre h post,
        hours = pre ++ h :: post /\
        Forall (fun k => bucket cands k <> []) pre /\
        bucket cands h = [] /\
        pick_hours dev cands hours acc w =
          rejection dev h (advance (length pre) w)).
Proof.
  induction hours as [|h later IH]; intros acc w Hcols.
  - left. exists []. split; [constructor|].
    simpl. rewrite app_nil_r, advance_0. now destruct acc.
  - cbn [pick_hours].
    change (rows (Pandas.select (fun r => Pandas.hour_is (StartDateTime r) h) cands))
      with (bucket cands h).
    destruct (length (bucket cands h) <? 1) eqn:Hshort.
    + right. exists [], h, later.
      apply (short_frame_iff (Pandas.select _ cands)) in Hshort.
      split; [reflexivity|]. split; [constructor|]. split; [exact Hshort|].
      simpl. rewrite advance_0. now destruct dev.
    + assert (Hne : bucket cands h <> []).
      { intros Hnil. apply (short_frame_iff (Pandas.select _ cands)) in Hnil.
        unfold bucket in Hshort. congruence. }
      destruct (sample_run
                  (Pandas.select (fun r => Pandas.hour_is (StartDateTime r) h) cands)
                  w Hne) as (r & Hr & Hsample).
      rewrite (bind_ok _ _ _ _ _ Hsample).
      set (picked := mkFrame _ [r]).
      assert (Hcols' : columns (Pandas.append acc picked) = columns acc).
      { apply append_same_header. now rewrite Hcols. }
      destruct (IH (Pandas.append acc picked) (advance 1 w)
                   (eq_trans Hcols' Hcols))
        as [(picks & Hpicks & Hrun) | (pre & k & post & Hsplit & Hpre & Hk & Hrun)].
      * left. exists (r :: picks). split; [now constructor|].
        rewrite Hrun, advance_advance, Hcols'.
        replace (length later + 1) with (length (h :: later)) by (simpl; lia).
        simpl. now rewrite <- app_assoc.
      * right. exists (h :: pre), k, post.
        split; [simpl; now rewrite Hsplit|].
        split; [now constructor|]. split; [exact Hk|].
        rewrite Hrun, advance_advance.
        replace (length pre + 1) with (length (h :: pre)) by (simpl; lia).
        reflexivity.
Qed.

Lemma Forall2_seq_nth {A} (P : nat -> A -> Prop) :
  forall n a l,
    Forall2 P (seq a n) l ->
    length l = n /\
    forall i, i < n -> exists x, nth_error l i = Some x /\ P (a + i) x.
Proof.
  induction n as [|n IH]; intros a l H; simpl in H; inversion H; subst.
  - split; [reflexivity | intros i Hi; lia].
  - destruct (IH _ _ H4) as [Hlen Hnth]. split; [simpl; now rewrite Hlen|].
    intros [|i] Hi.
    + exists y. rewrite Nat.add_0_r. now split.
    + destruct (Hnth i ltac:(lia)) as (x & Hx & HP).
      exists x. split; [exact Hx|]. now replace (a + S i) with (S a + i) by lia.
Qed.

Lemma seq_split_at :
  forall pre n a h post,
    seq a n = pre ++ h :: post ->
    h = a + length pre /\ length pre < n /\ pre = seq a (length pre).
Proof.
  induction pre as [|x pre IH]; intros n a h post H.
  - destruct n; simpl in H; [discriminate|]. injection H as <- _.
    simpl. repeat split; lia.
  - destruct n; simpl in H; [discriminate|]. injection H as <- H.
    destruct (IH _ _ _ _ H) as (Hh & Hlt & Hpre).
    simpl. repeat split; [lia | lia | now f_equal].
Qed.

Lemma pick_random_sample_unfold table dev w :
  pick_random_sample table dev w =
  pick_hours dev (candidates table dev) (seq 0 24)
             (Pandas.empty_frame (columns table)) w.
Proof. reflexivity. Qed.

(** A device the table covers is accepted: the sampler returns 24 rows, the
    one at position [h] an eligible row of hour [h], after 24 draws and
    without printing. *)
Lemma pick_random_sample_accepts table dev w :
  covered table dev ->
  exists picks,
    pick_random_sample table dev w =
      (Ok (true, Some (mkFrame (columns table) picks)), advance 24 w) /\
    length picks = 24 /\
    forall h, h < 24 ->
      exists r, nth_error picks h = Some r /\
                In r (rows table) /\ Eligible dev h r.
Proof.
  intros Hcov. rewrite pick_random_sample_unfold.
  destruct (pick_hours_run dev (candidates table dev) (seq 0 24)
              (Pandas.empty_frame (columns table)) w eq_refl)
    as [(picks & Hpicks & Hrun) | (pre & h & post & Hsplit & _ & Hh & _)].
  - exists picks. split; [exact Hrun|].
    apply Forall2_seq_nth in Hpicks as [Hlen Hnth]. split; [exact Hlen|].
    intros h Hh. destruct (Hnth h Hh) as (r & Hr & Hin).
    exists r. split; [exact Hr|]. now apply data_for_hour_In in Hin.
  - exfalso. apply seq_split_at in Hsplit as (-> & Hlt & _).
    destruct (Hcov _ Hlt) as (r & Hr & He).
    apply (proj1 (data_for_hour_nil_iff table dev (0 + length pre)) Hh r Hr He).
Qed.

(** A device with a hole in its day meets its end at the first empty hour
    [h], after the [h] draws made for the hours before. *)
Lemma pick_random_sample_stops table dev w h :
  h < 24 ->
  empty_hour table dev h ->
  (forall k, k < h -> ~ empty_hour table dev k) ->
  pick_random_sample table dev w = rejection dev h (advance h w).
Proof.
  intros Hlt Hempty Hfirst. rewrite pick_random_sample_unfold.
  destruct (pick_hours_run dev (candidates table dev) (seq 0 24)
              (Pandas.empty_frame (columns table)) w eq_refl)
    as [(picks & Hpicks & _) | (pre & k & post & Hsplit & Hpre & Hk & Hrun)].
  - exfalso. apply Forall2_seq_nth in Hpicks as [_ Hnth].
    destruct (Hnth h Hlt) as (r & _ & Hin).
    apply data_for_hour_In in Hin as [Hr He]. exact (Hempty r Hr He).
  - apply seq_split_at in Hsplit as (Hkeq & Hklt & Hpreq). simpl in Hkeq.
    apply data_for_hour_nil_iff in Hk.
    assert (Hkh : k = h).
    { destruct (Nat.lt_trichotomy k h) as [Hc | [Hc | Hc]]; [|exact Hc|].
      - now destruct (Hfirst k Hc).
      - exfalso. rewrite Forall_forall in Hpre.
        apply (Hpre h).
        + rewrite Hpreq. apply in_seq. lia.
        + now apply data_for_hour_nil_iff. }
    rewrite Hrun. now rewrite <- Hkeq, Hkh.
Qed.

(** A string device with a hole in its day is rejected at the first empty hour
    [h]: nothing is returned, [h] draws were made for the hours before, and
    the rejection was printed. *)
Lemma pick_random_sample_rejects table d w h :
  h < 24 ->
  empty_hour table (Text d) h ->
  (forall k, k < h -> ~ empty_hour table (Text d) k) ->
  pick_random_sample table (Text d) w =
    (Ok (false, None), printed [reject_line d h] (advance h w)).
Proof.
  intros Hlt Hempty Hfirst.
  now rewrite (pick_random_sample_stops table (Text d) w h).
Qed.

Lemma find_seq_first (p : nat -> bool) :
  forall n a h,
    find p (seq a n) = Some h ->
    a <= h < a + n /\ p h = true /\ forall k, a <= k < h -> p k = false.
Proof.
  induction n as [|n IH]; intros a h H; simpl in H; [discriminate|].
  destruct (p a) eqn:Hpa.
  - injection H as <-. repeat split; try lia. exact Hpa.
  - destruct (IH _ _ H) as (Hb & Hp & Hleast).
    repeat split; try lia; [exact Hp|].
    intros k Hk. destruct (Nat.eq_dec k a) as [-> | Hne]; [exact Hpa|].
    apply Hleast. lia.
Qed.

Lemma first_empty_hour_Some table dev h :
  first_empty_hour table dev = Some h ->
  h < 24 /\ empty_hour table dev h /\
  forall k, k < h -> ~ empty_hour table dev k.
Proof.
  unfold first_empty_hour. intros H.
  apply find_seq_first in H as (Hb & Hp & Hleast).
  split; [lia|]. split.
  - apply data_for_hour_nil_iff. now apply short_frame_iff.
  - intros k Hk Hempty. apply data_for_hour_nil_iff in Hempty.
    apply (short_frame_iff (data_for_hour table dev k)) in Hempty.
    rewrite Hleast in Hempty by lia. discriminate.
Qed.

Lemma first_empty_hour_None table dev :
  first_empty_hour table dev = None -> covered table dev.
Proof.
  unfold first_empty_hour. intros H h Hh.
  assert (Hp := find_none _ _ H h ltac:(apply in_seq; lia)).
  cbv beta in Hp.
  destruct (rows (data_for_hour table dev h)) as [|r l] eqn:E;
    [discriminate|].
  exists r. apply data_for_hour_In. rewrite E. now left.
Qed.

(** A hole in the day and full coverage exclude each other. *)
Lemma covered_no_empty_hour table dev h :
  covered table dev -> h < 24 -> ~ empty_hour table dev h.
Proof.
  intros Hcov Hh Hempty. destruct (Hcov h Hh) as (r & Hr & He).
  exact (Hempty r Hr He).
Qed.

(** What the sampler does on any device, by cases on the first empty hour. *)
Lemma pick_random_sample_run_any table dev w :
  match first_empty_hour table dev with
  | Some h => pick_random_sample table dev w = rejection dev h (advance h w)
  | None =>
      exists picks,
        pick_random_sample table dev w =
          (Ok (true, Some (mkFrame (columns table) picks)), advance 24 w) /\
        length picks = 24 /\
        forall h, h < 24 ->
          exists r, nth_error picks h = Some r /\
                    In r (rows table) /\ Eligible dev h r
  end.
Proof.
  destruct (first_empty_hour table dev) as [h|] eqn:E.
  - apply first_empty_hour_Some in E as (Hh & Hempty & Hfirst).
    now apply pick_random_sample_stops.
  - apply pick_random_sample_accepts. now apply first_empty_hour_None.
Qed.

(** What the sampler does on a device that is a string, by cases on the
    first empty hour. *)
Lemma pick_random_sample_run table d w :
  match first_empty_hour table (Text d) with
  | Some h =>
      pick_random_sample table (Text d) w =
        (Ok (false, None), printed [reject_line d h] (advance h w))
  | None =>
      exists picks,
        pick_random_sample table (Text d) w =
          (Ok (true, Some (mkFrame (columns table) picks)), advance 24 w) /\
        length picks = 24 /\
        forall h, h < 24 ->
          exists r, nth_error picks h = Some r /\
                    In r (rows table) /\ Eligible (Text d) h r
  end.
Proof. exact (pick_random_sample_run_any table (Text d) w). Qed.

Lemma candidates_missing table : rows (candidates table Missing) = [].
Proof.
  destruct (rows (candidates table Missing)) as [|r l] eqn:E; [reflexivity|].
  assert (Hin : In r (rows (candidates table Missing))) by (rewrite E; now left).
  apply candidates_In in Hin as (_ & (Hd & _) & _). now destruct Hd.
Qed.

(** With a missing value as the device nothing matches, hour 0 is empty, and
    building the rejection line fails: a float cannot be added to a string. *)
Lemma pick_random_sample_nan table w :
  pick_random_sample table Missing w = (Raise TypeError, w).
Proof.
  rewrite pick_random_sample_unfold.
  pose proof (candidates_missing table) as Hnil.
  destruct (candidates table Missing) as [cols rs]. simpl in Hnil. subst rs.
  reflexivity.
Qed.

Lemma rejection_not_accepted dev h w samples w' :
  rejection dev h w <> (Ok (true, samples), w').
Proof. destruct dev; discriminate. Qed.

Lemma rejection_no_frame dev h w did_select out w' :
  rejection dev h w <> (Ok (did_select, Some out), w').
Proof. destruct dev; discriminate. Qed.

(** The rows of an accepted sample, hour by hour. *)
Lemma accepted_sample_rows
    (table : TimedFrame) (device_id : Cell) (w w' : World)
    (samples : option TimedFrame) :
  pick_random_sample table device_id w = (Ok (true, samples), w') ->
  exists picks,
    samples = Some (mkFrame (columns table) picks) /\
    length picks = 24 /\
    forall h, h < 24 ->
      exists r, nth_error picks h = Some r /\
                In r (rows table) /\ Eligible device_id h r.
Proof.
  intros Hrun.
  pose proof (pick_random_sample_run_any table device_id w) as Hspec.
  destruct (first_empty_hour table device_id) as [h|].
  - rewrite Hspec in Hrun. now destruct (rejection_not_accepted _ _ _ _ _ Hrun).
  - destruct Hspec as (picks & Hpick & Hlen & Hrows).
    rewrite Hpick in Hrun. injection Hrun as <- _.
    exists picks. repeat split; try assumption.
Qed.

(** C1. When [pick_random_sample] accepts a device it returns exactly 24
    records under the table's header; the record at position [h] (so in
    ascending hour order, one per hour 0-23) is a row of the cleaned table,
    unchanged, that starts in hour [h], lasts more than 60 seconds and carries
    the queried device id: the same string, for an id that is a string (and
    the same number for a numeric one; a missing id is never accepted). *)
Theorem C1_accepted_sample_is_one_eligible_row_per_hour
    (table : TimedFrame) (device_id : Cell) (w w' : World)
    (samples : option TimedFrame) :
  pick_random_sample table device_id w = (Ok (true, samples), w') ->
  exists picks,
    samples = Some (mkFrame (columns table) picks) /\
    length picks = 24 /\
    forall h, h < 24 ->
      exists r, nth_error picks h = Some r /\
                In r (rows table) /\
                of_device device_id r /\ long_enough r /\ starts_in_hour h r.
Proof.
  intros Hrun.
  destruct (accepted_sample_rows _ _ _ _ _ Hrun) as (picks & Hs & Hlen & Hrows).
  exists picks. split; [exact Hs|]. split; [exact Hlen|].
  intros h Hh. destruct (Hrows h Hh) as (r & Hr & Hin & Hdev & Hlong & Hstart).
  exists r. tauto.
Qed.

(** C2. On a device id that is a string, [pick_random_sample] always returns,
    and it returns "no sample" exactly when some hour in 0-23 has no eligible
    record.  A rejection returns nothing (no partial output) and stops at the
    first empty hour [h]: one draw was made for each of the [h] hours before
    it and the one line printed names [h].  A device without any long-enough
    row is rejected at hour 0, before any draw. *)
Theorem C2_rejected_iff_some_hour_is_empty
    (table : TimedFrame) (d : string) (w : World) :
  exists did_select samples w',
    pick_random_sample table (Text d) w = (Ok (did_select, samples), w') /\
    (did_select = false <->
       exists h, h < 24 /\ empty_hour table (Text d) h) /\
    (did_select = false ->
       samples = None /\
       exists h, h < 24 /\ empty_hour table (Text d) h /\
         (forall k, k < h -> ~ empty_hour table (Text d) k) /\
         w' = printed [reject_line d h] (advance h w)) /\
    ((forall r, In r (rows table) -> ~ (of_device (Text d) r /\ long_enough r)) ->
       did_select = false /\ w' = printed [reject_line d 0] w).
Proof.
  pose proof (pick_random_sample_run table d w) as Hspec.
  destruct (first_empty_hour table (Text d)) as [h|] eqn:E.
  - apply first_empty_hour_Some in E as (Hh & Hempty & Hfirst).
    exists false, None, (printed [reject_line d h] (advance h w)).
    split; [exact Hspec|]. split; [|split].
    + split; [intros _; now exists h | reflexivity].
    + intros _. split; [reflexivity|]. now exists h.
    + intros Hnone. split; [reflexivity|].
      destruct h as [|h]; [now rewrite advance_0|].
      exfalso. apply (Hfirst 0); [lia|].
      intros r Hr (Hdev & Hlong & _). now apply (Hnone r Hr).
  - apply first_empty_hour_None in E.
    destruct Hspec as (picks & Hpick & _).
    exists true, (Some (mkFrame (columns table) picks)), (advance 24 w).
    split; [exact Hpick|]. split; [|split].
    + split; [discriminate|].
      intros (h & Hh & Hempty). now destruct (covered_no_empty_hour _ _ _ E Hh).
    + discriminate.
    + intros Hnone. exfalso. destruct (E 0 ltac:(lia)) as (r & Hr & Hdev & Hlong & _).
      now apply (Hnone r Hr).
Qed.

Lemma verdict_same_in_all_worlds
    (table : TimedFrame) (device_id : Cell) (w1 w2 : World) :
  verdict (pick_random_sample table device_id w1) =
  verdict (pick_random_sample table device_id w2).
Proof.
  pose proof (pick_random_sample_run_any table device_id w1) as H1.
  pose proof (pick_random_sample_run_any table device_id w2) as H2.
  destruct (first_empty_hour table device_id) as [h|].
  - rewrite H1, H2. now destruct device_id.
  - destruct H1 as (p1 & -> & _). destruct H2 as (p2 & -> & _). reflexivity.
Qed.

(* ================================================================== *)
(** * Rows whose start time does not parse *)
(* ================================================================== *)




(* ================================================================== *)
(** * The loop over the devices *)
(* ================================================================== *)

Lemma world_eq_intro w1 w2 :
  rng_seed w1 = rng_seed w2 -> rng_pos w1 = rng_pos w2 ->
  stdin w1 = stdin w2 -> stdout w1 = stdout w2 -> stderr w1 = stderr w2 ->
  io_trace w1 = io_trace w2 -> w1 = w2.
Proof. destruct w1, w2; simpl; intros; subst; reflexivity. Qed.

Ltac world_eq :=
  apply world_eq_intro; simpl;
  rewrite ?map_app, <- ?app_assoc; simpl; try reflexivity; try lia.


Lemma is_text_dec c : {is_text c} + {~ is_text c}.
Proof.
  destruct c as [|s|z]; [right | left; now exists s | right];
    intros [s Hs]; discriminate.
Qed.


Lemma accepts_true_iff table dev :
  accepts table dev = true <-> is_text dev /\ covered table dev.
Proof.
  unfold accepts. destruct dev as [|d|z].
  - split; [discriminate | intros [[s Hs] _]; discriminate Hs].
  - destruct (first_empty_hour table (Text d)) as [h|] eqn:E.
    + apply first_empty_hour_Some in E as (Hh & Hempty & _).
      split; [discriminate|]. intros [_ Hcov].
      now destruct (covered_no_empty_hour _ _ _ Hcov Hh).
    + apply first_empty_hour_None in E. split; [|reflexivity].
      intros _. split; [now exists d | exact E].
  - split; [discriminate | intros [[s Hs] _]; discriminate Hs].
Qed.

Lemma sample_devices_reject table d devs acc w h :
  first_empty_hour table (Text d) = Some h ->
  sample_devices table (Text d :: devs) acc w =
  sample_devices table devs acc
    (printed [attempt_line d; reject_line d h; "Device is invalid."]
             (advance h w)).
Proof.
  intros E. pose proof (pick_random_sample_run table d (printed [attempt_line d] w))
    as Hpick.
  rewrite E in Hpick.
  cbn [sample_devices str_add_r].
  unfold bind at 1 2 3. cbn [ret].
  change (print _ w) with (Ok tt, printed [attempt_line d] w).
  cbv iota. rewrite Hpick. unfold bind at 1. rewrite print_run.
  f_equal. world_eq.
Qed.

Lemma sample_devices_accept table d devs acc w :
  first_empty_hour table (Text d) = None ->
  exists picks,
    day_of table (Text d) picks /\
    sample_devices table (Text d :: devs) acc w =
    sample_devices table devs (Pandas.append acc (mkFrame (columns table) picks))
      (printed [attempt_line d; "Sample picked!"] (advance 24 w)).
Proof.
  intros E. pose proof (pick_random_sample_run table d (printed [attempt_line d] w))
    as Hpick.
  rewrite E in Hpick. destruct Hpick as (picks & Hpick & Hday).
  exists picks. split; [exact Hday|].
  cbn [sample_devices str_add_r].
  unfold bind at 1 2 3. cbn [ret].
  change (print _ w) with (Ok tt, printed [attempt_line d] w).
  cbv iota. rewrite Hpick. unfold bind at 1. rewrite print_run.
  f_equal. world_eq.
Qed.

Lemma sample_devices_not_text table dev later acc w :
  ~ is_text dev ->
  sample_devices table (dev :: later) acc w = (Raise TypeError, w).
Proof.
  intros Hnt. destruct dev as [|s|z]; [reflexivity | | reflexivity].
  destruct Hnt. now exists s.
Qed.

(** The loop over the devices.  It gets through the devices before the first
    value that is not a string, printing their lines and making their draws.
    If such a value (a missing value, a number) is among the devices the loop
    dies there with [TypeError]; if not, it returns the frame it was given
    followed by one day of rows for every accepted device, in the order of
    the devices. *)
Lemma sample_devices_run (table : TimedFrame) :
  forall devs acc w,
    columns acc = columns table ->
    let run := sample_devices table devs acc w in
    snd run =
      printed (flat_map (device_log table) (visited devs))
              (advance (list_sum (map (device_draws table) (visited devs))) w) /\
    ((~ Forall is_text devs /\ fst run = Raise TypeError) \/
     (Forall is_text devs /\
      exists groups,
        Forall2 (day_of table) (filter (accepts table) devs) groups /\
        fst run = Ok (mkFrame (columns acc) (rows acc ++ concat groups)))).
Proof.
  induction devs as [|dev devs IH]; intros acc w Hcols run.
  - subst run. simpl. split; [now rewrite advance_0, printed_nil|].
    right. split; [constructor|]. exists []. split; [constructor|].
    simpl. rewrite app_nil_r. now destruct acc.
  - destruct (is_text_dec dev) as [[d ->] | Hnt].
    + subst run. cbn [visited flat_map map list_sum filter].
      destruct (first_empty_hour table (Text d)) as [h|] eqn:E.
      * rewrite (sample_devices_reject _ _ _ _ _ _ E).
        assert (Hacc : accepts table (Text d) = false)
          by (unfold accepts; now rewrite E).
        assert (Hlog : device_log table (Text d) =
                       [attempt_line d; reject_line d h; "Device is invalid."])
          by (unfold device_log; now rewrite E).
        assert (Hdraws : device_draws table (Text d) = h)
          by (unfold device_draws; now rewrite E).
        rewrite Hacc, Hlog, Hdraws.
        destruct (IH acc
                    (printed [attempt_line d; reject_line d h; "Device is invalid."]
                             (advance h w)) Hcols) as [Hw Hres].
        split.
        -- rewrite Hw. world_eq.
        -- destruct Hres as [[Hin Hr] | [Hnin Hr]]; [left | right].
           ++ split; [|exact Hr]. intros Hall. apply Hin.
              now inversion Hall.
           ++ split; [|exact Hr]. constructor; [now exists d | exact Hnin].
      * destruct (sample_devices_accept table d devs acc w E)
          as (picks & Hday & Hstep).
        rewrite Hstep.
        assert (Hacc : accepts table (Text d) = true)
          by (unfold accepts; now rewrite E).
        assert (Hlog : device_log table (Text d) =
                       [attempt_line d; "Sample picked!"])
          by (unfold device_log; now rewrite E).
        assert (Hdraws : device_draws table (Text d) = 24)
          by (unfold device_draws; now rewrite E).
        rewrite Hacc, Hlog, Hdraws.
        set (acc' := Pandas.append acc (mkFrame (columns table) picks)).
        assert (Hcols' : columns acc' = columns acc).
        { apply append_same_header. now rewrite Hcols. }
        destruct (IH acc' (printed [attempt_line d; "Sample picked!"] (advance 24 w))
                     (eq_trans Hcols' Hcols)) as [Hw Hres].
        split.
        -- rewrite Hw. world_eq.
        -- destruct Hres as [[Hin Hr] | [Hnin (groups & Hgroups & Hr)]];
             [left | right].
           ++ split; [|exact Hr]. intros Hall. apply Hin.
              now inversion Hall.
           ++ split; [constructor; [now exists d | exact Hnin]|].
              exists (picks :: groups). split.
              ** constructor; [exact Hday | exact Hgroups].
              ** rewrite Hr, Hcols'. simpl. now rewrite <- app_assoc.
    + subst run. rewrite (sample_devices_not_text _ _ _ _ _ Hnt).
      assert (Hv : visited (dev :: devs) = []).
      { destruct dev as [|s|z]; [reflexivity | | reflexivity].
        destruct Hnt. now exists s. }
      rewrite Hv. simpl. split; [now rewrite advance_0, printed_nil|].
      left. split; [|reflexivity]. intros Hall. apply Hnt. now inversion Hall.
Qed.





Lemma run_sampler_unfold table w :
  run_sampler table w =
  sample_devices table (device_list table) (Pandas.empty_frame (columns table))
    (printed ["Getting devices..."; "Device list created."] w).
Proof.
  unfold run_sampler, bind. rewrite !print_run. f_equal. world_eq.
Qed.

Lemma concat_days_length table devs groups :
  Forall2 (day_of table) devs groups ->
  length (concat groups) = 24 * length devs.
Proof.
  induction 1 as [|dev g devs groups [Hlen _] _ IH]; simpl; [reflexivity|].
  rewrite length_app, IH, Hlen. lia.
Qed.


(** What the sampling part of [main] does on a table, whatever the table:
    the world it leaves, and its outcome by cases on whether every device id
    is a string. *)
Lemma run_sampler_run table w :
  let run := run_sampler table w in
  let devices := device_list table in
  snd run =
    printed ("Getting devices..." :: "Device list created." ::
             flat_map (device_log table) (visited devices))
            (advance (list_sum (map (device_draws table) (visited devices))) w) /\
  ((~ Forall is_text devices /\ fst run = Raise TypeError) \/
   (Forall is_text devices /\
    exists groups,
      Forall2 (day_of table) (filter (accepts table) devices) groups /\
      fst run = Ok (mkFrame (columns table) (concat groups)))).
Proof.
  intros run devices. subst run devices. rewrite run_sampler_unfold.
  destruct (sample_devices_run table (device_list table)
              (Pandas.empty_frame (columns table))
              (printed ["Getting devices..."; "Device list created."] w) eq_refl)
    as [Hw Hres].
  split; [rewrite Hw; world_eq | exact Hres].
Qed.


(* ================================================================== *)
(** * The whole run *)
(* ================================================================== *)

Lemma main_argv_refused env w :
  argv_refused env -> main env w = (Ok false, errored [usage_input] w).
Proof.
  intros [Huse Hlen]. unfold main, get_file_to_open. rewrite Huse.
  apply Nat.eqb_neq in Hlen. rewrite Hlen. reflexivity.
Qed.

Lemma main_eof env w :
  USE_COMMAND_LINE_ARGS env = false ->
  length (stdin w) < 2 ->
  exists w', main env w = (Raise EOFError, w') /\
             io_trace w' = io_trace w /\ stderr w' = stderr w.
Proof.
  intros Huse Hlen. unfold main, get_file_to_open, get_file_output_path.
  rewrite Huse. destruct w as [seed pos inp out err io].
  destruct inp as [|l1 [|l2 rest]]; simpl in Hlen; try lia.
  - eexists. split; [reflexivity|]. now split.
  - eexists. split; [reflexivity|]. now split.
Qed.

Lemma main_acquired env w inp out w1 :
  acquired env w = Some (inp, out, w1) ->
  main env w = load_sample_write env inp out w1.
Proof.
  unfold acquired, main, get_file_to_open, get_file_output_path, argv_at.
  destruct (USE_COMMAND_LINE_ARGS env).
  - destruct (sys_argv env) as [|a0 [|a1 [|a2 l]]]; try discriminate.
    intros [= <- <- <-]. reflexivity.
  - destruct w as [seed pos lines out' err io].
    destruct lines as [|l1 [|l2 rest]]; try discriminate.
    simpl. intros [= <- <- <-].
    unfold bind, input, ret; simpl. now rewrite <- app_assoc.
Qed.

(** Either the count of arguments is wrong, or the standard input ends
    before the second path, or both paths are obtained. *)
Lemma acquisition_cases env w :
  argv_refused env \/
  (USE_COMMAND_LINE_ARGS env = false /\ length (stdin w) < 2) \/
  (exists inp out w1,
      acquired env w = Some (inp, out, w1) /\
      io_trace w1 = io_trace w /\ stderr w1 = stderr w /\
      rng_seed w1 = rng_seed w /\ rng_pos w1 = rng_pos w).
Proof.
  unfold argv_refused, acquired.
  destruct (USE_COMMAND_LINE_ARGS env).
  - destruct (sys_argv env) as [|a0 [|a1 [|a2 l]]]; simpl;
      try (left; split; [reflexivity | lia]).
    right. right. exists a0, a1, w. repeat split.
  - right. destruct (stdin w) as [|l1 [|l2 rest]]; simpl;
      try (left; split; [reflexivity | lia]).
    right. eexists _, _, _. split; [reflexivity|]. repeat split.
Qed.

Lemma stderr_write_run s w : stderr_write s w = (Ok tt, errored [s] w).
Proof. reflexivity. Qed.

Lemma log_io_run ev w : log_io ev w = (Ok tt, logged [ev] w).
Proof. reflexivity. Qed.

Lemma load_sample_write_read_fails env inp out w1 e :
  fs_read env inp = inl e ->
  load_sample_write env inp out w1 =
    (Ok false, errored [read_error_line e] (logged [ReadCsv inp] w1)).
Proof.
  intros Hread. unfold load_sample_write, try_read_csv.
  unfold bind at 1 2. rewrite log_io_run. cbn [ret]. rewrite Hread.
  reflexivity.
Qed.

Lemma load_sample_write_read_ok env inp out w1 raw :
  fs_read env inp = inr raw ->
  load_sample_write env inp out w1 =
    finish env out (run_sampler (cleaned env raw) (at_sampling inp w1)).
Proof.
  intros Hread. unfold load_sample_write, try_read_csv.
  unfold bind at 1 2. rewrite log_io_run. cbn [ret]. rewrite Hread.
  unfold bind at 1 2 3 4. rewrite !print_run.
  replace (printed _ (printed _ (printed _ (printed _ (logged [ReadCsv inp] w1)))))
    with (at_sampling inp w1) by (unfold at_sampling, loading_lines; world_eq).
  change (Pandas.assign_start _ (remove_erroneous_rows raw))
    with (cleaned env raw).
  unfold bind at 1.
  destruct (run_sampler (cleaned env raw) (at_sampling inp w1)) as [[df | x] w3];
    simpl; [|reflexivity].
  unfold bind at 1 2, try_to_csv. rewrite !print_run.
  unfold bind at 1 2. rewrite log_io_run. cbn [ret].
  replace (logged _ (printed _ (printed _ w3))) with (at_end out df w3)
    by (unfold at_end; world_eq).
  destruct (fs_write env out df) as [e|]; reflexivity.
Qed.

Lemma skipn_length_app {A} (l e : list A) : skipn (length l) (l ++ e) = e.
Proof. induction l as [|x l IH]; simpl; [reflexivity | exact IH]. Qed.

Lemma skipn_length_same {A} (l : list A) : skipn (length l) l = [].
Proof. induction l as [|x l IH]; simpl; [reflexivity | exact IH]. Qed.

Lemma acquired_keeps env w inp out w1 :
  acquired env w = Some (inp, out, w1) ->
  io_trace w1 = io_trace w /\ stderr w1 = stderr w /\ ~ argv_refused env.
Proof.
  unfold acquired, argv_refused.
  destruct (USE_COMMAND_LINE_ARGS env).
  - destruct (sys_argv env) as [|a0 [|a1 [|a2 l]]]; try discriminate.
    intros [= <- <- <-]. repeat split. intros [_ H]. now apply H.
  - destruct (stdin w) as [|l1 [|l2 rest]]; try discriminate.
    intros [= <- <- <-]. repeat split. intros [H _]. discriminate.
Qed.

Lemma main_run env w : RunKind env w.
Proof.
  destruct (acquisition_cases env w)
    as [Husage | [[Huse Hlen] | (inp & out & w1 & Hacq & Hio & Herr & _)]].
  - apply ArgvRefused; [exact Husage | now apply main_argv_refused |].
    unfold events. rewrite (main_argv_refused _ _ Husage). simpl.
    apply skipn_length_same.
  - destruct (main_eof env w Huse Hlen) as (w' & Hmain & Hio & Herr).
    apply InputEnded.
    + intros [H _]. congruence.
    + unfold acquired. rewrite Huse.
      destruct (stdin w) as [|l1 [|l2 rest]]; simpl in Hlen; try reflexivity; lia.
    + now rewrite Hmain.
    + unfold events. rewrite Hmain. simpl. rewrite Hio. apply skipn_length_same.
    + now rewrite Hmain.
  - pose proof (main_acquired _ _ _ _ _ Hacq) as Hmain.
    destruct (fs_read env inp) as [e | raw] eqn:Hread.
    + rewrite (load_sample_write_read_fails _ _ _ _ _ Hread) in Hmain.
      apply (ReadFailed env w inp out w1 e); try assumption.
      * now rewrite Hmain.
      * unfold events. rewrite Hmain. simpl. rewrite Hio.
        apply skipn_length_app.
      * rewrite Hmain. simpl. now rewrite Herr.
    + rewrite (load_sample_write_read_ok _ _ _ _ _ Hread) in Hmain.
      pose proof (run_sampler_run (cleaned env raw) (at_sampling inp w1)) as Hrs.
      cbv zeta in Hrs.
      destruct (run_sampler (cleaned env raw) (at_sampling inp w1))
        as [res w3] eqn:Hrun.
      simpl in Hrs. destruct Hrs as [Hw3 Hres].
      assert (Hio3 : io_trace w3 = io_trace w ++ [ReadCsv inp])
        by (rewrite Hw3; simpl; now rewrite Hio).
      assert (Herr3 : stderr w3 = stderr w) by (rewrite Hw3; simpl; exact Herr).
      destruct Hres as [[Hnan Hres] | [Hnan (groups & _ & Hres)]].
      * subst res. simpl in Hmain.
        apply (DeviceNotText env w inp out w1 raw); try assumption.
        -- now rewrite Hmain.
        -- unfold events. rewrite Hmain. simpl. rewrite Hio3.
           apply skipn_length_app.
        -- now rewrite Hmain.
      * destruct res as [df | x]; [clear Hres groups | discriminate].
        simpl in Hmain.
        apply (Sampled env w inp out w1 raw df); try assumption.
        -- now rewrite Hrun.
        -- unfold events. rewrite Hmain.
           destruct (fs_write env out df); simpl; rewrite Hio3, <- app_assoc;
             apply skipn_length_app.
        -- rewrite Hmain. now destruct (fs_write env out df).
        -- rewrite Hmain.
           destruct (fs_write env out df); simpl; rewrite Herr3;
             [reflexivity | now rewrite app_nil_r].
Qed.

(* ================================================================== *)
(** * Outcomes of [main] *)
(* ================================================================== *)


(** From a hypothesis [In ev [e1; ...]] to the cases. *)
Ltac in_events H :=
  repeat (destruct H as [H | H];
          [try discriminate H;
           first [injection H as <- <- | injection H as <- | idtac] | ]);
  try contradiction.


(* ================================================================== *)
(** * Two runs over one table *)
(* ================================================================== *)

(** C6. Accepting or rejecting does not depend on the random draws.  On any
    device, two runs of [pick_random_sample] over the same table give the same
    verdict, whatever the generator holds.  Over the whole device list, two
    runs print the same lines (so the same devices are reported accepted and
    rejected) and make the same number of draws, and either both die on a
    device id that is not a string or both return one day of rows for each
    device of the same accepted list; only the rows drawn may differ. *)
Theorem C6_verdict_independent_of_draws (table : TimedFrame) (w1 w2 : World) :
  (forall device_id,
      verdict (pick_random_sample table device_id w1) =
      verdict (pick_random_sample table device_id w2)) /\
  exists lines n,
    snd (run_sampler table w1) = printed lines (advance n w1) /\
    snd (run_sampler table w2) = printed lines (advance n w2) /\
    ((outcome (run_sampler table w1) = Raise TypeError /\
      outcome (run_sampler table w2) = Raise TypeError) \/
     (exists g1 g2,
         outcome (run_sampler table w1) =
           Ok (mkFrame (columns table) (concat g1)) /\
         outcome (run_sampler table w2) =
           Ok (mkFrame (columns table) (concat g2)) /\
         Forall2 (day_of table)
                 (filter (accepts table) (device_list table)) g1 /\
         Forall2 (day_of table)
                 (filter (accepts table) (device_list table)) g2)).
Proof.
  split; [intros dev; apply verdict_same_in_all_worlds|].
  destruct (run_sampler_run table w1) as [Hw1 Hr1].
  destruct (run_sampler_run table w2) as [Hw2 Hr2].
  eexists _, _. split; [exact Hw1|]. split; [exact Hw2|].
  unfold outcome.
  destruct Hr1 as [[Hn1 Hr1] | [Hn1 (g1 & Hg1 & Hr1)]];
    destruct Hr2 as [[Hn2 Hr2] | [Hn2 (g2 & Hg2 & Hr2)]];
    try contradiction.
  - left. now split.
  - right. now exists g1, g2.
Qed.

(* ================================================================== *)
(** * A missing device id *)
(* ================================================================== *)

Lemma sample_devices_nan table later acc w :
  sample_devices table (Missing :: later) acc w = (Raise TypeError, w).
Proof. reflexivity. Qed.

(** C10. There is an input whose cleaned table holds a row without device id
    (the row has no error, so the Cleaner keeps it).  The device list then
    holds the missing value, and the turn of the loop for it raises
    [TypeError] while building its progress line, before printing it.  [main]
    does not catch it: the run ends with that exception, neither [True] nor
    [False], after the read and without any write; the devices listed after
    the missing value are never tried. *)
Theorem C10_missing_device_id_raises_in_loop :
  exists (env : Env) (w : World) (raw : RawFrame),
    fs_read env "in.csv" = inr raw /\
    (exists r, In r (rows (cleaned env raw)) /\ AudioMothCode r = Missing) /\
    device_list (cleaned env raw) = [Text "D1"; Missing; Text "D3"] /\
    (forall table later acc w0,
        sample_devices table (Missing :: later) acc w0 = (Raise TypeError, w0)) /\
    outcome (main env w) = Raise TypeError /\
    outcome (main env w) <> Ok true /\
    outcome (main env w) <> Ok false /\
    events env w = [ReadCsv "in.csv"] /\
    stdout (snd (main env w)) =
      ["Enter input file path: "; "Enter output file path: "] ++
      map (fun s => (s ++ nl)%string)
          (loading_lines ++
           ["Getting devices..."; "Device list created.";
            attempt_line "D1"; "Sample picked!"]).
Proof.
  exists (Sample.env_of Sample.raw_nan), Sample.world, Sample.raw_nan.
  split; [reflexivity|]. split.
  { exists (mkRow 24 Missing None (Some 120%Q) (Some (Sample.stamp 5)) [None]).
    split; [|reflexivity]. vm_compute. do 24 right. now left. }
  split; [vm_compute; reflexivity|].
  split; [intros; apply sample_devices_nan|].
  assert (Hout : outcome (main (Sample.env_of Sample.raw_nan) Sample.world)
                 = Raise TypeError) by (vm_compute; reflexivity).
  split; [exact Hout|]. rewrite Hout.
  split; [discriminate|]. split; [discriminate|].
  split; vm_compute; reflexivity.
Qed.

(* ================================================================== *)
(** * Argument mode *)
(* ================================================================== *)

Lemma argument_mode_slots env w a0 a1 :
  USE_COMMAND_LINE_ARGS env = true ->
  sys_argv env = [a0; a1] ->
  get_file_to_open env w = (Ok (Some a0), w) /\
  get_file_output_path env w = (Ok (Some a1), w).
Proof.
  intros Huse Hargv. unfold get_file_to_open, get_file_output_path, argv_at.
  rewrite Huse, Hargv. split; reflexivity.
Qed.

(** C8.  What argument mode does.  The call the usage line asks for (the
    script, the input path, the output path) is refused: the usage line goes
    to the error stream, [main] returns [False] and no file is touched.  The
    only argument vector accepted has two slots, and then the input path is
    slot 0, the name of the script, and the output path is slot 1, the first
    argument. *)
Theorem C8_argument_mode_reads_slots_0_and_1 :
  main (Sample.env_args Sample.argv_usage) Sample.world =
    (Ok false, errored [usage_input] Sample.world) /\
  events (Sample.env_args Sample.argv_usage) Sample.world = [] /\
  acquired (Sample.env_args ["./stratifiedRandomSampler.py"; "in.csv"])
           Sample.world =
    Some ("./stratifiedRandomSampler.py", "in.csv", Sample.world) /\
  events (Sample.env_args ["./stratifiedRandomSampler.py"; "in.csv"])
         Sample.world =
    [ReadCsv "./stratifiedRandomSampler.py";
     WriteCsv "in.csv"
       (mkFrame Sample.header
          (firstn 24 (rows Sample.table)))] /\
  (forall env w a0 a1,
      USE_COMMAND_LINE_ARGS env = true ->
      sys_argv env = [a0; a1] ->
      get_file_to_open env w = (Ok (Some a0), w) /\
      get_file_output_path env w = (Ok (Some a1), w)) /\
  (forall env w,
      USE_COMMAND_LINE_ARGS env = true ->
      length (sys_argv env) <> 2 ->
      main env w = (Ok false, errored [usage_input] w) /\ events env w = []).
Proof.
  split; [apply main_argv_refused; split; [reflexivity | discriminate]|].
  split; [vm_compute; reflexivity|].
  split; [reflexivity|].
  split; [vm_compute; reflexivity|].
  split; [apply argument_mode_slots|].
  intros env w Huse Hlen.
  assert (Hu : argv_refused env) by now split.
  split; [now apply main_argv_refused|].
  unfold events. rewrite (main_argv_refused _ _ Hu). simpl.
  apply skipn_length_same.
Qed.

(* ================================================================== *)
(** * The claims on the sample data *)
(* ================================================================== *)

Example sample_table_size : length (rows Sample.table) = 49.
Proof. reflexivity. Qed.

Example sample_devices_listed :
  device_list Sample.table = [Text "D1"; Text "D2"].
Proof. vm_compute. reflexivity. Qed.

Example sample_first_empty_hours :
  first_empty_hour Sample.table (Text "D1") = None /\
  first_empty_hour Sample.table (Text "D2") = Some 23 /\
  first_empty_hour Sample.table (Text "D9") = Some 0.
Proof. vm_compute. repeat split. Qed.

Example sample_main_succeeds :
  outcome (main (Sample.env_of Sample.raw) Sample.world) = Ok true.
Proof. vm_compute. reflexivity. Qed.


(** The sampler accepts D1 on the sample table: the sample it returns has the
    24 rows C1 describes. *)
Lemma C1_witness_sample_device_D1 :
  exists picks,
    Some (mkFrame Sample.header (firstn 24 (rows Sample.table))) =
      Some (mkFrame (columns Sample.table) picks) /\
    length picks = 24 /\
    forall h, h < 24 ->
      exists r, nth_error picks h = Some r /\
                In r (rows Sample.table) /\
                of_device (Text "D1") r /\ long_enough r /\ starts_in_hour h r.
Proof.
  apply (C1_accepted_sample_is_one_eligible_row_per_hour
           Sample.table (Text "D1") Sample.world (advance 24 Sample.world)).
  vm_compute. reflexivity.
Defined.


(** C4.  The orchestrator on a cleaned table with a row without device id
    (here between the full days of D1 and D3).  The missing value is
    enumerated as a device, D1 is sampled, and the turn for the missing value
    raises [TypeError]: the loop returns no output table, so there is no
    table of 24 rows per accepted device although D1 and D3 are both
    covered, and D3 is never visited. *)
Theorem C4_loop_raises_on_missing_device_id :
  Sample.table_nan = clean (Pandas.coerce_object Sample.parse_hour) Sample.raw_nan /\
  (exists r, In r (rows Sample.table_nan) /\ AudioMothCode r = Missing) /\
  device_list Sample.table_nan = [Text "D1"; Missing; Text "D3"] /\
  filter (accepts Sample.table_nan) (device_list Sample.table_nan) =
    [Text "D1"; Text "D3"] /\
  outcome (run_sampler Sample.table_nan Sample.world) = Raise TypeError /\
  stdout (snd (run_sampler Sample.table_nan Sample.world)) =
    map (fun s => (s ++ nl)%string)
        ["Getting devices..."; "Device list created.";
         attempt_line "D1"; "Sample picked!"] /\
  ~ (exists out w',
        run_sampler Sample.table_nan Sample.world = (Ok out, w') /\
        length (rows out) =
          24 * length (filter (accepts Sample.table_nan)
                              (device_list Sample.table_nan))).
Proof.
  split; [reflexivity|]. split.
  { exists (mkRow 24 Missing None (Some 120%Q) (Some (Sample.stamp 5)) [None]).
    split; [|reflexivity]. vm_compute. do 24 right. now left. }
  split; [vm_compute; reflexivity|]. split; [vm_compute; reflexivity|].
  assert (Hout : outcome (run_sampler Sample.table_nan Sample.world)
                 = Raise TypeError) by (vm_compute; reflexivity).
  split; [exact Hout|]. split; [vm_compute; reflexivity|].
  intros (out & w' & Hrun & _). rewrite Hrun in Hout.
  cbv [outcome fst] in Hout. discriminate Hout.
Qed.


(** Numeric device codes: the sampler itself accepts a covered device, but
    the loop of [main] raises on its progress line. *)
Example numeric_codes :
  device_list (clean (Pandas.coerce_object Sample.parse_hour) Sample.raw_numeric)
    = [Number 7] /\
  verdict (pick_random_sample
             (clean (Pandas.coerce_object Sample.parse_hour) Sample.raw_numeric)
             (Number 7) Sample.world) = Ok true /\
  outcome (run_sampler
             (clean (Pandas.coerce_object Sample.parse_hour) Sample.raw_numeric)
             Sample.world) = Raise TypeError.
Proof. vm_compute. repeat split. Qed.

(** Scenario B: D2 lacks hour 23 and is rejected there, after 23 draws. *)
Example scenario_B_rejected_at_hour_23 :
  pick_random_sample Sample.table (Text "D2") Sample.world =
    (Ok (false, None),
     printed [reject_line "D2" 23] (advance 23 Sample.world)).
Proof. vm_compute. reflexivity. Qed.

(** Scenarios C, D and E: the three rows of D2 for hour 23 do not count. *)
Example scenario_CDE_hour_23_is_empty :
  rows (data_for_hour Sample.table (Text "D2") 23) = [] /\
  map Index (rows Sample.table) = seq 0 47 ++ [48; 49] /\
  map StartDateTime (skipn 47 (rows Sample.table)) =
    [Some (Sample.stamp 23); None].
Proof. vm_compute. repeat split. Qed.

(* ================================================================== *)
(** * Which rows are drawn *)
(* ================================================================== *)

Lemma pick_hours_exact (d : string) (cands : TimedFrame) :
  forall hours acc w,
    columns acc = columns cands ->
    Forall (fun h => bucket cands h <> []) hours ->
    pick_hours (Text d) cands hours acc w =
      (Ok (true,
           Some (mkFrame (columns acc)
                         (rows acc ++
                          drawn cands (rng_seed w) (rng_pos w) hours))),
       advance (length hours) w).
Proof.
  induction hours as [|h later IH]; intros acc w Hcols Hall.
  - simpl. rewrite app_nil_r, advance_0. now destruct acc.
  - inversion Hall as [|? ? Hne Hlater]; subst.
    cbn [pick_hours drawn]. unfold sample.
    change (rows (Pandas.select (fun r => Pandas.hour_is (StartDateTime r) h) cands))
      with (bucket cands h).
    destruct (bucket cands h) as [|r0 rest] eqn:E; [congruence|].
    cbn [length Nat.ltb Nat.leb].
    unfold bind at 1 2. rewrite random_below_run. cbn [ret].
    set (r := nth _ (r0 :: rest) r0).
    set (picked := mkFrame _ [r]).
    assert (Hcols' : columns (Pandas.append acc picked) = columns acc).
    { apply append_same_header. now rewrite Hcols. }
    rewrite (IH (Pandas.append acc picked) (advance 1 w)
                (eq_trans Hcols' Hcols) Hlater).
    rewrite advance_advance, Hcols'.
    replace (length later + 1) with (length (h :: later)) by (simpl; lia).
    simpl. now rewrite <- app_assoc.
Qed.

Lemma drawn_nth_error (cands : TimedFrame) (seed : nat -> nat) :
  forall n a pos i,
    (forall h, a <= h < a + n -> bucket cands h <> []) ->
    i < n ->
    nth_error (drawn cands seed pos (seq a n)) i =
    nth_error (bucket cands (a + i))
              (seed (pos + i) mod length (bucket cands (a + i))).
Proof.
  induction n as [|n IH]; intros a pos i Hne Hi; [lia|].
  cbn [seq drawn].
  assert (Ha : bucket cands a <> []) by (apply Hne; lia).
  destruct (bucket cands a) as [|r0 rest] eqn:E; [congruence|].
  destruct i as [|i].
  - rewrite !Nat.add_0_r, E. cbn [nth_error]. symmetry.
    apply nth_error_nth'. apply Nat.mod_upper_bound. discriminate.
  - cbn [nth_error]. rewrite IH; [|intros h Hh; apply Hne; lia | lia].
    now replace (S a + i) with (a + S i) by lia;
      replace (S pos + i) with (pos + S i) by lia.
Qed.

Lemma drawn_length (cands : TimedFrame) (seed : nat -> nat) :
  forall hours pos,
    Forall (fun h => bucket cands h <> []) hours ->
    length (drawn cands seed pos hours) = length hours.
Proof.
  induction hours as [|h later IH]; intros pos Hall; [reflexivity|].
  inversion Hall as [|? ? Hne Hlater]; subst. cbn [drawn].
  destruct (bucket cands h); [congruence|]. simpl. now rewrite IH.
Qed.

Lemma covered_buckets table dev h :
  covered table dev -> h < 24 -> bucket (candidates table dev) h <> [].
Proof.
  intros Hcov Hh Hnil.
  apply (covered_no_empty_hour table dev h Hcov Hh).
  now apply data_for_hour_nil_iff.
Qed.

(** The sample of a covered device, draw by draw. *)
Lemma pick_random_sample_exact table d w :
  covered table (Text d) ->
  pick_random_sample table (Text d) w =
    (Ok (true,
         Some (mkFrame (columns table)
                 (drawn (candidates table (Text d)) (rng_seed w) (rng_pos w)
                        (seq 0 24)))),
     advance 24 w).
Proof.
  intros Hcov. rewrite pick_random_sample_unfold.
  rewrite (pick_hours_exact d (candidates table (Text d)) (seq 0 24)
             (Pandas.empty_frame (columns table)) w eq_refl).
  - reflexivity.
  - apply Forall_forall. intros h Hh. apply in_seq in Hh.
    apply covered_buckets; [exact Hcov | lia].
Qed.


(** X2. No eligible row is out of reach of the draw: for a covered device,
    any hour [h] and any eligible row [r] of that hour, some state of the
    generator makes the sampler return [r] as the row of hour [h]. *)
Theorem every_eligible_row_can_be_drawn
    (table : TimedFrame) (d : string) (h : nat) (r : Row (option Timestamp))
    (w : World) :
  covered table (Text d) ->
  h < 24 ->
  In r (rows table) ->
  Eligible (Text d) h r ->
  exists i picks,
    pick_random_sample table (Text d) (with_constant_draw i w) =
      (Ok (true, Some (mkFrame (columns table) picks)),
       advance 24 (with_constant_draw i w)) /\
    nth_error picks h = Some r.
Proof.
  intros Hcov Hh Hr He.
  assert (Hin : In r (rows (data_for_hour table (Text d) h)))
    by now apply data_for_hour_In.
  apply In_nth_error in Hin as (i & Hi).
  assert (Hlt : i < length (rows (data_for_hour table (Text d) h)))
    by (apply nth_error_Some; congruence).
  exists i. eexists. split; [now apply pick_random_sample_exact|].
  rewrite (drawn_nth_error (candidates table (Text d)) _ 24 0 _ h);
    [|intros k Hk; apply covered_buckets; [exact Hcov | lia] | exact Hh].
  cbn [Nat.add with_constant_draw rng_seed].
  change (bucket (candidates table (Text d)) h)
    with (rows (data_for_hour table (Text d) h)).
  now rewrite Nat.mod_small.
Qed.

(** X3. When every hour of the day holds exactly one eligible row of the
    device, the generator has no say: any two runs return the same sample,
    made of those 24 rows. *)
Theorem single_candidates_leave_no_choice
    (table : TimedFrame) (d : string) (w1 w2 : World) :
  (forall h, h < 24 -> length (rows (data_for_hour table (Text d) h)) = 1) ->
  outcome (pick_random_sample table (Text d) w1) =
  outcome (pick_random_sample table (Text d) w2) /\
  exists picks,
    outcome (pick_random_sample table (Text d) w1) =
      Ok (true, Some (mkFrame (columns table) picks)) /\
    length picks = 24 /\
    forall h, h < 24 ->
      nth_error picks h = nth_error (rows (data_for_hour table (Text d) h)) 0.
Proof.
  intros Hone.
  assert (Hcov : covered table (Text d)).
  { intros h Hh. specialize (Hone h Hh).
    destruct (rows (data_for_hour table (Text d) h)) as [|r l] eqn:E;
      [discriminate|].
    exists r. apply data_for_hour_In. rewrite E. now left. }
  assert (Hne : forall k, 0 <= k < 0 + 24 ->
                  bucket (candidates table (Text d)) k <> [])
    by (intros k Hk; apply covered_buckets; [exact Hcov | lia]).
  assert (Hall : Forall (fun h => bucket (candidates table (Text d)) h <> [])
                        (seq 0 24)).
  { apply Forall_forall. intros h Hh. apply in_seq in Hh. now apply Hne. }
  assert (Hnth : forall w h, h < 24 ->
            nth_error (drawn (candidates table (Text d)) (rng_seed w)
                             (rng_pos w) (seq 0 24)) h =
            nth_error (rows (data_for_hour table (Text d) h)) 0).
  { intros w h Hh.
    rewrite (drawn_nth_error _ _ 24 0 _ h Hne Hh). cbn [Nat.add].
    change (bucket (candidates table (Text d)) h)
      with (rows (data_for_hour table (Text d) h)).
    now rewrite (Hone h Hh), Nat.mod_1_r. }
  assert (Hsame : drawn (candidates table (Text d)) (rng_seed w1) (rng_pos w1)
                        (seq 0 24) =
                  drawn (candidates table (Text d)) (rng_seed w2) (rng_pos w2)
                        (seq 0 24)).
  { apply nth_error_ext. intros h.
    destruct (Nat.lt_ge_cases h 24) as [Hh | Hh].
    - now rewrite !Hnth.
    - transitivity (@None (Row (option Timestamp)));
        [|symmetry]; apply nth_error_None;
        rewrite drawn_length by exact Hall; now rewrite length_seq. }
  rewrite !(pick_random_sample_exact _ _ _ Hcov). unfold outcome. cbn [fst].
  split; [now rewrite Hsame|].
  eexists. split; [reflexivity|]. split.
  - rewrite drawn_length by exact Hall. apply length_seq.
  - intros h Hh. now apply Hnth.
Qed.

(** X4. The sample of a device depends on the rows of that device only: two
    tables with the same header and the same rows for the device, in the same
    order, give the same result in the same world, whatever rows the other
    devices have. *)
Theorem sample_ignores_rows_of_other_devices
    (t1 t2 : TimedFrame) (d : string) (w : World) :
  columns t1 = columns t2 ->
  filter (fun r => Pandas.eq_cell (AudioMothCode r) (Text d)) (rows t1) =
  filter (fun r => Pandas.eq_cell (AudioMothCode r) (Text d)) (rows t2) ->
  pick_random_sample t1 (Text d) w = pick_random_sample t2 (Text d) w.
Proof.
  intros Hcols Hrows. unfold pick_random_sample, Pandas.select. cbn [rows columns].
  now rewrite Hcols, Hrows.
Qed.

(** The rows of a returned frame are eligible rows of the table. *)
Lemma sample_rows_eligible table dev w did_select out w' r :
  pick_random_sample table dev w = (Ok (did_select, Some out), w') ->
  In r (rows out) ->
  exists h, h < 24 /\ In r (rows table) /\ Eligible dev h r.
Proof.
  intros Hrun Hin. destruct did_select.
  - destruct (accepted_sample_rows _ _ _ _ _ Hrun)
      as (picks & [= ->] & Hlen & Hrows).
    simpl in Hin. apply In_nth_error in Hin as (h & Hh).
    assert (Hlt : h < 24).
    { rewrite <- Hlen. apply nth_error_Some. congruence. }
    destruct (Hrows h Hlt) as (r' & Hr' & Hin' & He).
    assert (Heq : r' = r) by congruence. subst r'.
    exists h. split; [exact Hlt|]. split; [exact Hin' | exact He].
  - pose proof (pick_random_sample_run_any table dev w) as Hspec.
    destruct (first_empty_hour table dev).
    + rewrite Hspec in Hrun. now destruct (rejection_no_frame _ _ _ _ _ _ Hrun).
    + destruct Hspec as (p & Hp & _). rewrite Hp in Hrun. discriminate.
Qed.

(** X5. The bound of 60 seconds is strict, and a missing duration is below
    it: a row whose duration is missing or at most 60 is eligible for no hour
    of no device, is in no hour bucket, and is in no sample the sampler
    returns. *)
Theorem short_rows_never_count
    (table : TimedFrame) (r : Row (option Timestamp)) :
  (forall q, Duration r = Some q -> (q <= 60)%Q) ->
  (forall dev h, ~ Eligible dev h r) /\
  (forall dev h, ~ In r (rows (data_for_hour table dev h))) /\
  (forall dev w did_select out w',
      pick_random_sample table dev w = (Ok (did_select, Some out), w') ->
      ~ In r (rows out)).
Proof.
  intros Hshort.
  assert (Hne : forall dev h, ~ Eligible dev h r).
  { intros dev h (_ & (q & Hq & Hlt) & _).
    apply (Qlt_not_le _ _ Hlt). now apply Hshort. }
  split; [exact Hne|]. split.
  - intros dev h Hin. apply data_for_hour_In in Hin as [_ He].
    exact (Hne dev h He).
  - intros dev w b out w' Hrun Hin.
    destruct (sample_rows_eligible _ _ _ _ _ _ _ Hrun Hin) as (h & _ & _ & He).
    exact (Hne dev h He).
Qed.

(** X6. Called with a missing value as the device, [pick_random_sample] does
    not return "no sample": nothing matches, hour 0 is empty, and building the
    rejection line raises [TypeError], before any draw and any print. *)
Theorem sampler_raises_on_missing_device (table : TimedFrame) (w : World) :
  rows (candidates table Missing) = [] /\
  pick_random_sample table Missing w = (Raise TypeError, w).
Proof.
  split; [apply candidates_missing | apply pick_random_sample_nan].
Qed.

(* ================================================================== *)
(** * More on the whole run *)
(* ================================================================== *)

Lemma clean_In {T} (conv : T -> option Timestamp) (raw : DataFrame T) r :
  In r (rows (clean conv raw)) <->
  exists r0,
    In r0 (rows raw) /\ Error r0 = None /\
    r = mkRow (Index r0) (AudioMothCode r0) (Error r0) (Duration r0)
              (conv (StartDateTime r0)) (Payload r0).
Proof.
  unfold clean, Pandas.assign_start. cbn [rows]. rewrite in_map_iff.
  split.
  - intros (r0 & <- & Hr0). apply remove_erroneous_rows_In in Hr0 as [Hin Herr].
    now exists r0.
  - intros (r0 & Hin & Herr & ->). exists r0. split; [reflexivity|].
    now apply remove_erroneous_rows_In.
Qed.




(** The file operations of a run, by cases. *)
Lemma main_reads_once_then_writes_once_aux (env : Env) (w : World) :
  (events env w = [] /\ acquired env w = None) \/
  exists inp out w1,
    acquired env w = Some (inp, out, w1) /\
    ((events env w = [ReadCsv inp] /\
      ((exists e, fs_read env inp = inl e) \/
       (exists raw, fs_read env inp = inr raw /\
                    ~ Forall is_text (device_list (cleaned env raw))))) \/
     (exists raw df,
         fs_read env inp = inr raw /\
         outcome (run_sampler (cleaned env raw) (at_sampling inp w1)) = Ok df /\
         events env w = [ReadCsv inp; WriteCsv out df])).
Proof.
  destruct (main_run env w)
    as [Husage Hmain Hev
       | Hnusage Hacq Hout Hev Herr
       | inp out w1 e Hacq Hread Hout Hev Herr
       | inp out w1 raw Hacq Hread Hnan Hout Hev Herr
       | inp out w1 raw df Hacq Hread Hnan Hdf Hev Hout Herr].
  - left. split; [exact Hev|].
    destruct (acquired env w) as [[[i o] w1]|] eqn:E; [|reflexivity].
    apply acquired_keeps in E. tauto.
  - left. now split.
  - right. exists inp, out, w1. split; [exact Hacq|]. left.
    split; [exact Hev|]. left. now exists e.
  - right. exists inp, out, w1. split; [exact Hacq|]. left.
    split; [exact Hev|]. right. now exists raw.
  - right. exists inp, out, w1. split; [exact Hacq|]. right.
    now exists raw, df.
Qed.

(** X9. A run of [main] touches the file system in one of three ways: not at
    all; one read of the input path; or one read of the input path followed
    by one write to the output path.  It never writes before reading, never
    reads or writes twice, and writes only when the read succeeded and the
    loop over the devices came to its end. *)
Theorem main_reads_once_then_writes_once (env : Env) (w : World) :
  (events env w = [] /\ acquired env w = None) \/
  exists inp out w1,
    acquired env w = Some (inp, out, w1) /\
    ((events env w = [ReadCsv inp] /\
      ((exists e, fs_read env inp = inl e) \/
       (exists raw, fs_read env inp = inr raw /\
                    ~ Forall is_text (device_list (cleaned env raw))))) \/
     (exists raw df,
         fs_read env inp = inr raw /\
         outcome (run_sampler (cleaned env raw) (at_sampling inp w1)) = Ok df /\
         events env w = [ReadCsv inp; WriteCsv out df])).
Proof. apply main_reads_once_then_writes_once_aux. Qed.

Lemma Forall2_in_right {A B} (P : A -> B -> Prop) la lb b :
  Forall2 P la lb -> In b lb -> exists a, In a la /\ P a b.
Proof.
  induction 1 as [|a b' la lb HP _ IH]; intros Hin; [destruct Hin|].
  destruct Hin as [<- | Hin].
  - exists a. split; [now left | exact HP].
  - destruct (IH Hin) as (a' & Ha' & HP'). exists a'. split; [now right | exact HP'].
Qed.

(** The frame the loop returns holds eligible rows only. *)
Lemma run_sampler_rows table w df r :
  outcome (run_sampler table w) = Ok df ->
  In r (rows df) ->
  columns df = columns table /\
  length (rows df) =
    24 * length (filter (accepts table) (device_list table)) /\
  exists d h,
    In (Text d) (device_list table) /\ covered table (Text d) /\
    h < 24 /\ In r (rows table) /\ Eligible (Text d) h r.
Proof.
  intros Hout Hin.
  destruct (run_sampler_run table w) as [_ [[_ Hr] | [_ (groups & Hg & Hr)]]];
    unfold outcome in Hout; rewrite Hr in Hout; [discriminate|].
  injection Hout as <-. cbn [rows columns] in *.
  split; [reflexivity|]. split; [now apply (concat_days_length table)|].
  apply in_concat in Hin as (g & Hgin & Hrg).
  destruct (Forall2_in_right _ _ _ _ Hg Hgin) as (dev & Hdev & Hlen & Hday).
  apply filter_In in Hdev as [Hdev Hacc].
  apply accepts_true_iff in Hacc as [[d ->] Hcov].
  apply In_nth_error in Hrg as (h & Hh).
  assert (Hlt : h < 24) by (rewrite <- Hlen; apply nth_error_Some; congruence).
  destruct (Hday h Hlt) as (r' & Hr' & Hin' & He).
  assert (Heq : r' = r) by congruence. subst r'.
  now exists d, h.
Qed.

(** X10. Whatever [main] writes is made of good rows only.  If a run writes
    the frame [df], then [df] has the header of the file read and a multiple
    of 24 rows, and every row of [df] comes from a row of the file with a
    null error, with the same label, device, duration and other cells and
    with the start the parser reads from its text; the row has a device id,
    lasts more than 60 seconds, has a parsed start in an hour below 24, and
    its device is covered. *)
Theorem written_rows_are_eligible_rows_of_the_input
    (env : Env) (w : World) (path : string) (df : TimedFrame) :
  In (WriteCsv path df) (events env w) ->
  exists inp raw,
    fs_read env inp = inr raw /\
    columns df = columns raw /\
    (exists n, length (rows df) = 24 * n) /\
    forall r, In r (rows df) ->
      Error r = None /\
      long_enough r /\
      (exists d h t,
          AudioMothCode r = Text d /\ covered (cleaned env raw) (Text d) /\
          StartDateTime r = Some t /\ hour t = h /\ h < 24) /\
      exists r0,
        In r0 (rows raw) /\ Error r0 = None /\
        r = mkRow (Index r0) (AudioMothCode r0) None (Duration r0)
                  (Pandas.coerce_object (parse_datetime env) (StartDateTime r0))
                  (Payload r0).
Proof.
  intros Hw.
  destruct (main_run env w)
    as [Husage Hmain Hev
       | Hnusage Hacq Hout Hev Herr
       | inp out w1 e Hacq Hread Hout Hev Herr
       | inp out w1 raw Hacq Hread Hnan Hout Hev Herr
       | inp out w1 raw df0 Hacq Hread Hnan Hdf Hev Hout Herr];
    rewrite Hev in Hw; in_events Hw.
  exists inp, raw. split; [exact Hread|].
  assert (Hshape : columns df0 = columns raw /\
                   exists n, length (rows df0) = 24 * n).
  { pose proof (run_sampler_run (cleaned env raw) (at_sampling inp w1))
      as [_ [[_ Hr] | [_ (groups & Hg & Hr)]]];
      unfold outcome in Hdf; rewrite Hr in Hdf; [discriminate|].
    injection Hdf as <-. split; [reflexivity|]. eexists. cbn [rows].
    apply (concat_days_length (cleaned env raw)). exact Hg. }
  destruct Hshape as [Hcols Hlen].
  split; [exact Hcols|]. split; [exact Hlen|].
  intros r Hr.
  destruct (run_sampler_rows _ _ _ _ Hdf Hr)
    as (_ & _ & d & h & Hdev & Hcov & Hh & Hin & (_ & Hd) & Hlong & t & Ht & Hhour).
  apply clean_In in Hin as (r0 & Hin0 & Herr0 & Heq).
  split; [subst r; exact Herr0|]. split; [exact Hlong|]. split.
  - exists d, h, t. now repeat split.
  - exists r0. split; [exact Hin0|]. split; [exact Herr0|].
    now rewrite Heq, Herr0.
Qed.


(** X12. Once [get_file_to_open] has returned a path, [get_file_output_path]
    never returns [None]: in argument mode both make the same test on the
    argument count, and in interactive mode neither has a way to return
    [None].  So the second early return of [main] is never taken. *)
Theorem output_path_never_none_after_input_path
    (env : Env) (w w1 : World) (inp : string) :
  get_file_to_open env w = (Ok (Some inp), w1) ->
  outcome (get_file_output_path env w1) <> Ok None /\
  (USE_COMMAND_LINE_ARGS env = true ->
     exists out,
       sys_argv env = [inp; out] /\
       get_file_output_path env w1 = (Ok (Some out), w1)).
Proof.
  unfold get_file_to_open, get_file_output_path, argv_at, outcome.
  destruct (USE_COMMAND_LINE_ARGS env).
  - destruct (sys_argv env) as [|a0 [|a1 [|a2 l]]]; cbn; try discriminate.
    intros [= <- <-]. split; [discriminate|]. intros _. now exists a1.
  - intros _. split; [|discriminate].
    unfold bind, input. destruct (stdin w1); cbn; discriminate.
Qed.

Lemma main_keeps_rest_of_stdin env w inp out w1 :
  acquired env w = Some (inp, out, w1) ->
  stdin (snd (main env w)) = stdin w1.
Proof.
  intros Hacq. rewrite (main_acquired _ _ _ _ _ Hacq).
  destruct (fs_read env inp) as [e | raw] eqn:Hread.
  - now rewrite (load_sample_write_read_fails _ _ _ _ _ Hread).
  - rewrite (load_sample_write_read_ok _ _ _ _ _ Hread).
    pose proof (run_sampler_run (cleaned env raw) (at_sampling inp w1)) as Hrs.
    cbv zeta in Hrs.
    destruct (run_sampler (cleaned env raw) (at_sampling inp w1)) as [res w3].
    cbn [fst snd] in Hrs. destruct Hrs as [Hw3 _].
    destruct res as [df | x]; cbn [finish].
    + destruct (fs_write env out df); cbn; now rewrite Hw3.
    + cbn. now rewrite Hw3.
Qed.

(** X13. In interactive mode the first line typed is the input path and the
    second the output path: the run reads the file named by the first line
    and, if it writes, writes to the file named by the second.  It takes
    exactly these two lines from the standard input, however it ends. *)
Theorem interactive_mode_reads_input_path_then_output_path
    (env : Env) (w : World) (l1 l2 : string) (rest : list string) :
  USE_COMMAND_LINE_ARGS env = false ->
  stdin w = l1 :: l2 :: rest ->
  (exists later,
      events env w = ReadCsv l1 :: later /\
      forall p df, In (WriteCsv p df) later -> p = l2) /\
  stdin (snd (main env w)) = rest.
Proof.
  intros Huse Hstdin.
  assert (Hacq : exists w1, acquired env w = Some (l1, l2, w1) /\ stdin w1 = rest).
  { unfold acquired. rewrite Huse, Hstdin. eexists. split; reflexivity. }
  destruct Hacq as (w1 & Hacq & Hrest).
  split; [|now rewrite (main_keeps_rest_of_stdin _ _ _ _ _ Hacq)].
  destruct (main_reads_once_then_writes_once_aux env w) as [H | H].
  - destruct H as [_ Hnone]. congruence.
  - destruct H as (inp & out & w1' & Hacq' & Hev).
    rewrite Hacq in Hacq'. injection Hacq' as <- <- <-.
    destruct Hev as [[Hev _] | (raw & df & _ & _ & Hev)]; rewrite Hev.
    + exists []. split; [reflexivity | intros p df []].
    + exists [WriteCsv l2 df]. split; [reflexivity|].
      intros p d Hin. in_events Hin. reflexivity.
Qed.

(* ================================================================== *)
(** * These properties on the sample data *)
(* ================================================================== *)

Lemma sample_choice_covered : covered Sample.table_choice (Text "D1").
Proof. apply first_empty_hour_None. vm_compute. reflexivity. Qed.

(** The second recording of hour 5 can be drawn. *)
Lemma every_eligible_row_witness :
  exists i picks,
    pick_random_sample Sample.table_choice (Text "D1")
                       (with_constant_draw i Sample.world) =
      (Ok (true, Some (mkFrame (columns Sample.table_choice) picks)),
       advance 24 (with_constant_draw i Sample.world)) /\
    nth_error picks 5 =
      Some (mkRow 24 (Text "D1") None (Some 61%Q) (Some (Sample.stamp 5))
                  [Some "second"]).
Proof.
  apply (every_eligible_row_can_be_drawn Sample.table_choice "D1" 5
           (mkRow 24 (Text "D1") None (Some 61%Q) (Some (Sample.stamp 5))
                  [Some "second"])
           Sample.world).
  - exact sample_choice_covered.
  - lia.
  - vm_compute. do 24 right. left. reflexivity.
  - split; [split; [discriminate | reflexivity]|]. split.
    + exists 61%Q. split; reflexivity.
    + exists (Sample.stamp 5). split; reflexivity.
Defined.

(** In the sample table D1 has one recording per hour. *)
Lemma single_candidates_witness :
  outcome (pick_random_sample Sample.table (Text "D1") Sample.world) =
  outcome (pick_random_sample Sample.table (Text "D1")
                              (with_constant_draw 4 Sample.world)).
Proof.
  apply (single_candidates_leave_no_choice Sample.table "D1" Sample.world
           (with_constant_draw 4 Sample.world)).
  intros h Hh.
  do 24 (destruct h as [|h]; [vm_compute; reflexivity|]). lia.
Defined.

(** The rows of D2 do not matter to the sample of D1. *)
Lemma sample_ignores_rows_witness :
  pick_random_sample Sample.table (Text "D1") Sample.world =
  pick_random_sample
    (Pandas.select (fun r => Pandas.eq_cell (AudioMothCode r) (Text "D1"))
                   Sample.table)
    (Text "D1") Sample.world.
Proof.
  apply (sample_ignores_rows_of_other_devices Sample.table
           (Pandas.select (fun r => Pandas.eq_cell (AudioMothCode r) (Text "D1"))
                          Sample.table)
           "D1" Sample.world).
  - reflexivity.
  - vm_compute. reflexivity.
Defined.

(** The recording of exactly 60 seconds is never eligible. *)
Lemma short_rows_witness :
  (forall dev h,
      ~ Eligible dev h
          (mkRow 25 (Text "D1") None (Some 60%Q) (Some (Sample.stamp 7))
                 [Some "sixty"])) /\
  (forall dev h,
      ~ In (mkRow 25 (Text "D1") None (Some 60%Q) (Some (Sample.stamp 7))
                  [Some "sixty"])
           (rows (data_for_hour Sample.table_choice dev h))) /\
  (forall dev w did_select out w',
      pick_random_sample Sample.table_choice dev w =
        (Ok (did_select, Some out), w') ->
      ~ In (mkRow 25 (Text "D1") None (Some 60%Q) (Some (Sample.stamp 7))
                  [Some "sixty"])
           (rows out)).
Proof.
  apply (short_rows_never_count Sample.table_choice
           (mkRow 25 (Text "D1") None (Some 60%Q) (Some (Sample.stamp 7))
                  [Some "sixty"])).
  intros q [= <-]. apply Qle_refl.
Defined.

(** The run on the sample file writes the day of D1. *)
Lemma written_rows_witness :
  exists inp raw,
    fs_read (Sample.env_of Sample.raw) inp = inr raw /\
    columns (mkFrame Sample.header (firstn 24 (rows Sample.table))) =
      columns raw /\
    (exists n,
        length (rows (mkFrame Sample.header (firstn 24 (rows Sample.table)))) =
        24 * n) /\
    forall r,
      In r (rows (mkFrame Sample.header (firstn 24 (rows Sample.table)))) ->
      Error r = None /\
      long_enough r /\
      (exists d h t,
          AudioMothCode r = Text d /\
          covered (cleaned (Sample.env_of Sample.raw) raw) (Text d) /\
          StartDateTime r = Some t /\ hour t = h /\ h < 24) /\
      exists r0,
        In r0 (rows raw) /\ Error r0 = None /\
        r = mkRow (Index r0) (AudioMothCode r0) None (Duration r0)
                  (Pandas.coerce_object
                     (parse_datetime (Sample.env_of Sample.raw))
                     (StartDateTime r0))
                  (Payload r0).
Proof.
  apply (written_rows_are_eligible_rows_of_the_input
           (Sample.env_of Sample.raw) Sample.world "out.csv"
           (mkFrame Sample.header (firstn 24 (rows Sample.table)))).
  vm_compute. right. left. reflexivity.
Defined.


(** Argument mode with two slots. *)
Lemma output_path_witness :
  outcome (get_file_output_path (Sample.env_args ["a.csv"; "b.csv"])
                                Sample.world) <> Ok None /\
  (USE_COMMAND_LINE_ARGS (Sample.env_args ["a.csv"; "b.csv"]) = true ->
     exists out,
       sys_argv (Sample.env_args ["a.csv"; "b.csv"]) = ["a.csv"; out] /\
       get_file_output_path (Sample.env_args ["a.csv"; "b.csv"]) Sample.world =
         (Ok (Some out), Sample.world)).
Proof.
  apply (output_path_never_none_after_input_path
           (Sample.env_args ["a.csv"; "b.csv"]) Sample.world Sample.world
           "a.csv").
  reflexivity.
Defined.

(** The sample run reads in.csv, writes out.csv and leaves no line unread. *)
Lemma interactive_mode_witness :
  (exists later,
      events (Sample.env_of Sample.raw) Sample.world = ReadCsv "in.csv" :: later /\
      forall p df, In (WriteCsv p df) later -> p = "out.csv") /\
  stdin (snd (main (Sample.env_of Sample.raw) Sample.world)) = [].
Proof.
  apply (interactive_mode_reads_input_path_then_output_path
           (Sample.env_of Sample.raw) Sample.world "in.csv" "out.csv" []).
  - reflexivity.
  - reflexivity.
Defined.
